(** * A shallow embedding of the sglang runtime-endpoint client
      ([python/sglang/lang/backend/runtime_endpoint.py]) and of the
      bounded test runner ([python/sglang/test/test_utils.py]). *)

From Stdlib Require Import String Ascii List ZArith QArith Bool Lia.
From Stdlib Require Import Strings.Byte.
Import ListNotations.

Local Open Scope string_scope.
Local Open Scope nat_scope.
Local Set Warnings "-register-all".

(** ** Python values used by the client *)

(** JSON values as [json.loads] / [res.json()] return them: integers and
    floats are kept apart as Python's decoder keeps them. *)
Inductive json : Type :=
| JNull
| JBool (b : bool)
| JInt (z : Z)
| JFloat (q : Q)
| JStr (s : string)
| JList (l : list json)
| JObj (kvs : list (string * json)).

(** A Python [dict] with string keys: an association list in insertion
    order; [d[k] = v] overwrites in place or appends. *)
Definition dict := list (string * json).

Fixpoint dict_set (k : string) (v : json) (d : dict) : dict :=
  match d with
  | [] => [(k, v)]
  | (k', v') :: r => if String.eqb k k' then (k, v) :: r else (k', v') :: dict_set k v r
  end.

Fixpoint dict_get (k : string) (d : dict) : option json :=
  match d with
  | [] => None
  | (k', v') :: r => if String.eqb k k' then Some v' else dict_get k r
  end.

(** [{**a, **b}]-style literal: entries assigned left to right. *)
Definition dict_of (entries : list (string * json)) : dict :=
  fold_left (fun d '(k, v) => dict_set k v d) entries [].

(** The exceptions the embedded code can raise. *)
Inductive py_error : Type :=
| AssertionError (msg : string)
| RuntimeError (arg : json)
| KeyError (k : string)
| TypeError
| IndexError
| ValueError
| JSONDecodeError
| AttributeError (name : string)
| ConnectionError
| TimeoutError
| UnicodeDecodeError.

(** Python [s[n:]] on a string, for [n >= 0]. *)
Fixpoint str_drop (n : nat) (s : string) : string :=
  match n, s with
  | O, _ => s
  | S n', String _ s' => str_drop n' s'
  | S _, EmptyString => EmptyString
  end.

(** [obj[k]] on a decoded JSON value. *)
Definition json_index (j : json) (k : string) : json + py_error :=
  match j with
  | JObj kvs => match dict_get k kvs with Some v => inl v | None => inr (KeyError k) end
  | _ => inr TypeError
  end.

(** ** Streaming generation: the frame loop of [generate_stream] *)

Section Stream.

(** [json.loads] on the frame payload: [None] is a decoding failure. *)
Variable json_loads : string -> option json.

Definition nl : ascii := "010"%char.

Fixpoint lstrip_nl (s : string) : string :=
  match s with
  | String c s' => if Ascii.eqb c nl then lstrip_nl s' else s
  | EmptyString => EmptyString
  end.

Definition rev_string (s : string) : string :=
  string_of_list_ascii (rev (list_ascii_of_string s)).

(** [s.strip("\n")]. *)
Definition strip_nl (s : string) : string :=
  rev_string (lstrip_nl (rev_string (lstrip_nl s))).

(** What one line of the response body is, for the loop. *)
Inductive frame : Type :=
| Skipped                         (* empty or not starting with "data:" *)
| Done                            (* the literal "data: [DONE]" *)
| DataFrame (text : string) (meta : json)
| BadFrame (e : py_error).        (* decoding or indexing raised *)

Definition classify (chunk : string) : frame :=
  if negb (String.eqb chunk "") && String.prefix "data:" chunk then
    if String.eqb chunk "data: [DONE]" then Done
    else match json_loads (strip_nl (str_drop 5 chunk)) with
         | None => BadFrame JSONDecodeError
         | Some data =>
             match json_index data "text" with
             | inr e => BadFrame e
             | inl (JStr t) =>
                 match json_index data "meta_info" with
                 | inr e => BadFrame e
                 | inl m => DataFrame t m
                 end
             | inl _ => BadFrame TypeError
             end
         end
  else Skipped.

(** The loop: yielded [(chunk_text, meta_info)] pairs, and either the
    cursor [pos] at the normal end of the loop or the exception raised. *)
Fixpoint stream_loop (pos : nat) (chunks : list string)
  : list (string * json) * (nat + py_error) :=
  match chunks with
  | [] => ([], inl pos)
  | chunk :: rest =>
      match classify chunk with
      | Skipped => stream_loop pos rest
      | Done => ([], inl pos)
      | BadFrame e => ([], inr e)
      | DataFrame text meta =>
          let chunk_text := str_drop pos text in
          let pos' := pos + String.length chunk_text in
          let '(ys, fin) := stream_loop pos' rest in
          ((chunk_text, meta) :: ys, fin)
      end
  end.

End Stream.

(** Snapshots each extending the previous one. *)
Fixpoint prefix_chain (l : list string) : Prop :=
  match l with
  | a :: ((b :: _) as t) => (exists d, b = (a ++ d)%string) /\ prefix_chain t
  | _ => True
  end.

Definition concat_str (l : list string) : string := fold_right String.append "" l.

(** Total length of the yielded deltas. *)
Definition total_len (ys : list (string * json)) : nat :=
  fold_right (fun y n => String.length (fst y) + n) 0 ys.

(** The chunks are all data frames carrying the given snapshots. *)
Definition data_frames (json_loads : string -> option json)
    (chunks : list string) (snaps : list (string * json)) : Prop :=
  Forall2 (fun c s => classify json_loads c = DataFrame (fst s) (snd s)) chunks snaps.


(** The loop as the code runs it on the raw lines of the body: each line
    is first decoded ([chunk.decode("utf-8")], [None] for bytes that are
    not UTF-8, which raises [UnicodeDecodeError]) and then handled as in
    [stream_loop]. *)
Section RawStream.

Variable json_loads : string -> option json.
Variable utf8_decode : list byte -> option string.

Fixpoint stream_loop_raw (pos : nat) (raws : list (list byte))
  : list (string * json) * (nat + py_error) :=
  match raws with
  | [] => ([], inl pos)
  | raw :: rest =>
      match utf8_decode raw with
      | None => ([], inr UnicodeDecodeError)
      | Some chunk =>
          match classify json_loads chunk with
          | Skipped => stream_loop_raw pos rest
          | Done => ([], inl pos)
          | BadFrame e => ([], inr e)
          | DataFrame text meta =>
              let chunk_text := str_drop pos text in
              let pos' := pos + String.length chunk_text in
              let '(ys, fin) := stream_loop_raw pos' rest in
              ((chunk_text, meta) :: ys, fin)
          end
      end
  end.

End RawStream.

(** ** Transport, responses and the request log *)

(** One call of [http_request(url, json=..., stream=..., api_key=..., verify=...)]. *)
Record request : Type := mkRequest {
  req_url : string;
  req_json : option json;
  req_stream : bool;
  req_api_key : option string;
  req_verify : option string
}.

(** A response: its status code and its body, [None] when the body does
    not decode as JSON. *)
Record response : Type := mkResponse {
  status_code : Z;
  res_body : option json
}.

(** Computations that issue requests and may raise: the state is the log
    of requests issued so far, oldest first. *)
Definition M (A : Type) : Type := list request -> (A + py_error) * list request.

Definition ret {A : Type} (a : A) : M A := fun log => (inl a, log).
Definition raise {A : Type} (e : py_error) : M A := fun log => (inr e, log).
Definition lift {A : Type} (r : A + py_error) : M A := fun log => (r, log).
Definition bind {A B : Type} (m : M A) (k : A -> M B) : M B :=
  fun log => match m log with
             | (inl a, log') => k a log'
             | (inr e, log') => (inr e, log')
             end.

Notation "x <- m ;; k" := (bind m (fun x => k))
  (at level 61, m at next level, right associativity).

(** Sequencing on plain results. *)
Definition rbind {A B : Type} (r : A + py_error) (k : A -> B + py_error) : B + py_error :=
  match r with inl a => k a | inr e => inr e end.

Fixpoint mapR {A B : Type} (f : A -> B + py_error) (l : list A) : list B + py_error :=
  match l with
  | [] => inl []
  | x :: r => rbind (f x) (fun y => rbind (mapR f r) (fun ys => inl (y :: ys)))
  end.

(** ** Program state and sampling parameters *)

(** The part of [StreamExecutor] the backend reads: [text_] and
    [images_], a list of (path, base64 data) pairs. *)
Record StreamExecutor : Type := mkStreamExecutor {
  text_ : string;
  images_ : list (string * string)
}.

(** [sampling_params.dtype]: [None], the type [int], a string, or any
    other object (kept with its [str()] for the error message). *)
Inductive dtype_sel : Type :=
| DtypeNone
| DtypeIntType
| DtypeStr (s : string)
| DtypeOther (shown : string).

Record SglSamplingParams : Type := mkSamplingParams {
  dtype : dtype_sel;
  return_logprob : option json;
  logprob_start_len : option json;
  top_logprobs_num : option json;
  return_text_in_logprobs : option json
}.

(** [sampling_params.dtype in [int, "int"]] *)
Definition dtype_is_int (d : dtype_sel) : bool :=
  match d with
  | DtypeIntType => true
  | DtypeStr s => String.eqb s "int"
  | _ => false
  end.

Definition dtype_str (d : dtype_sel) : string :=
  match d with
  | DtypeNone => "None"
  | DtypeIntType => "<class 'int'>"
  | DtypeStr s => s
  | DtypeOther s => s
  end.

(** The session object: the attributes [RuntimeEndpoint.__init__] assigns. *)
Record RuntimeEndpoint : Type := mkRuntimeEndpoint {
  support_concate_and_append : bool;
  base_url : string;
  api_key : option string;
  verify : option string;
  model_info : json;
  chat_template : string
}.

(** Attribute values of a session, as read by [self.<name>]. *)
Inductive attr_val : Type :=
| ABool (b : bool)
| AStr (s : option string)
| AJson (j : json).

(** Modelled from the spec: the attributes [BaseBackend.__init__]
    (sglang/lang/backend/base_backend.py, not under src/) gives a session.
    The spec's Backend Session holds the endpoint configuration (base
    address, credential, TLS mode) and the model metadata and nothing else,
    so the instance dictionary holds exactly the attributes
    [RuntimeEndpoint.__init__] assigns. [getattr(self, name)] on a session:
    any other name raises [AttributeError]. *)
Definition getattr (self : RuntimeEndpoint) (name : string) : M attr_val :=
  if String.eqb name "support_concate_and_append" then ret (ABool (support_concate_and_append self))
  else if String.eqb name "base_url" then ret (AStr (Some (base_url self)))
  else if String.eqb name "api_key" then ret (AStr (api_key self))
  else if String.eqb name "verify" then ret (AStr (verify self))
  else if String.eqb name "model_info" then ret (AJson (model_info self))
  else if String.eqb name "chat_template" then ret (AStr (Some (chat_template self)))
  else raise (AttributeError name).

(** A keyword argument that carries a credential. *)
Definition cred_of (v : attr_val) : option string :=
  match v with AStr s => s | _ => None end.

(** ** The methods of [RuntimeEndpoint] *)

Section Endpoint.

(** The server behind the transport: [None] when it cannot be reached. *)
Variable server : request -> option response.
(** [SglSamplingParams.to_srt_kwargs()]. *)
Variable to_srt_kwargs : SglSamplingParams -> list (string * json).
(** [global_config.skip_special_tokens_in_output] and
    [global_config.spaces_between_special_tokens_in_out]. *)
Variable skip_special_tokens_in_output : bool.
Variable spaces_between_special_tokens_in_out : bool.
(** [get_chat_template_by_model_path]. *)
Variable get_chat_template_by_model_path : json -> string.

(** [http_request]: the request is issued (logged) and answered. *)
Definition http_request (r : request) : M response :=
  fun log => match server r with
             | Some res => (inl res, (log ++ [r])%list)
             | None => (inr ConnectionError, (log ++ [r])%list)
             end.

(** [res.json()] *)
Definition res_json (res : response) : M json :=
  match res_body res with Some j => ret j | None => raise JSONDecodeError end.

(** [_assert_success] *)
Definition _assert_success (res : response) : M unit :=
  if Z.eqb (status_code res) 200 then ret tt
  else (j <- res_json res ;; raise (RuntimeError j)).

(** [_add_images] *)
Definition _add_images (s : StreamExecutor) (data : dict) : M dict :=
  match images_ s with
  | [] => ret data
  | imgs =>
      if Nat.eqb (length imgs) 1
      then ret (dict_set "image_data" (JStr (snd (hd ("", "") imgs))) data)
      else raise (AssertionError "Only support one image.")
  end.

(** A POST to [/generate] with the session's credentials. *)
Definition generate_request (self : RuntimeEndpoint) (data : dict) (stream : bool) : request :=
  mkRequest (base_url self ++ "/generate") (Some (JObj data)) stream (api_key self) (verify self).

(** The payload [generate] and [generate_stream] build before images. *)
Definition build_data (s : StreamExecutor) (sp : SglSamplingParams) : dict + py_error :=
  let flags := [("skip_special_tokens", JBool skip_special_tokens_in_output);
                ("spaces_between_special_tokens", JBool spaces_between_special_tokens_in_out)] in
  let sp_dict :=
    match dtype sp with
    | DtypeNone => inl (dict_of (flags ++ to_srt_kwargs sp)%list)
    | d => if dtype_is_int d then inl (dict_of (flags ++ [("dtype", JStr "int")] ++ to_srt_kwargs sp)%list)
           else inr (RuntimeError (JStr ("Invalid dtype: " ++ dtype_str d)))
    end in
  rbind sp_dict (fun spd =>
    let data := dict_of [("text", JStr (text_ s)); ("sampling_params", JObj spd)] in
    let items := [("return_logprob", return_logprob sp);
                  ("logprob_start_len", logprob_start_len sp);
                  ("top_logprobs_num", top_logprobs_num sp);
                  ("return_text_in_logprobs", return_text_in_logprobs sp)] in
    inl (fold_left (fun d '(item, value) =>
                      match value with Some v => dict_set item v d | None => d end)
                   items data)).

(** [generate] *)
Definition generate (self : RuntimeEndpoint) (s : StreamExecutor) (sp : SglSamplingParams)
  : M (json * json) :=
  data <- lift (build_data s sp) ;;
  data <- _add_images s data ;;
  res <- http_request (generate_request self data false) ;;
  _ <- _assert_success res ;;
  obj <- res_json res ;;
  comp <- lift (json_index obj "text") ;;
  meta <- lift (json_index obj "meta_info") ;;
  ret (comp, meta).

(** [max(prompt_len - 2, 0)]: Python's [max] keeps the first argument
    unless the second is strictly greater. *)
Definition max_sub2 (prompt_len : json) : json + py_error :=
  match prompt_len with
  | JInt z => inl (if Z.ltb (z - 2) 0 then JInt 0 else JInt (z - 2))
  | JBool b => let z := (if b then 1 else 0)%Z in
               inl (if Z.ltb (z - 2) 0 then JInt 0 else JInt (z - 2))
  | JFloat q => inl (if negb (Qle_bool 0 (q - 2)) then JInt 0 else JFloat (q - 2))
  | _ => inr TypeError
  end.

(** [for r in obj]: lists yield their items, strings their characters,
    objects their keys; other values are not iterable. *)
Definition py_iter (obj : json) : list json + py_error :=
  match obj with
  | JList l => inl l
  | JStr s => inl (map (fun c => JStr (String c EmptyString)) (list_ascii_of_string s))
  | JObj kvs => inl (map (fun kv => JStr (fst kv)) kvs)
  | _ => inr TypeError
  end.

(** [r["meta_info"][key]] *)
Definition meta_field (key : string) (r : json) : json + py_error :=
  rbind (json_index r "meta_info") (fun m => json_index m key).

(** A numeric JSON value as numpy reads it. Non-numeric entries are not
    given an order here: they are treated as an error. *)
Definition to_number (j : json) : Q + py_error :=
  match j with
  | JInt z => inl (inject_Z z)
  | JFloat q => inl q
  | JBool b => inl (if b then 1 else 0)%Q
  | _ => inr TypeError
  end.

(** [np.argmax]: the index of the first maximal entry; [ValueError] on an
    empty sequence. *)
Fixpoint argmax_from (i best : nat) (bv : Q) (l : list Q) : nat :=
  match l with
  | [] => best
  | v :: r => if negb (Qle_bool v bv) then argmax_from (S i) i v r
              else argmax_from (S i) best bv r
  end.

Definition np_argmax (xs : list json) : nat + py_error :=
  rbind (mapR to_number xs) (fun vs =>
    match vs with
    | [] => inr ValueError
    | v :: r => inl (argmax_from 1 0 v r)
    end).

(** [choices[i]] for [i >= 0]. *)
Definition list_index {A : Type} (l : list A) (i : nat) : A + py_error :=
  match nth_error l i with Some x => inl x | None => inr IndexError end.

(** The first request of [select]: prime the prefix cache. *)
Definition select_prime_data (s : StreamExecutor) : dict :=
  dict_of [("text", JStr (text_ s)); ("sampling_params", JObj [("max_new_tokens", JInt 0)])].

(** The second request of [select]: score every choice in one batch. *)
Definition select_score_data (s : StreamExecutor) (choices : list string) (start : json) : dict :=
  dict_of [("text", JList (map (fun c => JStr (text_ s ++ c)) choices));
           ("sampling_params", JObj [("max_new_tokens", JInt 0)]);
           ("return_logprob", JBool true);
           ("logprob_start_len", start)].

(** [assert temperature <= 1e-5]: the literal [1e-5] is the double
    nearest to 10^-5, whose exact value is 5902958103587057 / 2^69. *)
Definition select_threshold : Q := 5902958103587057 # 590295810358705651712.

(** [select] *)
Definition select (self : RuntimeEndpoint) (s : StreamExecutor) (choices : list string)
    (temperature : Q) : M (string * list json * list json * list json) :=
  _ <- (if Qle_bool temperature select_threshold then ret tt else raise (AssertionError "")) ;;
  data <- _add_images s (select_prime_data s) ;;
  res <- http_request (generate_request self data false) ;;
  _ <- _assert_success res ;;
  obj <- res_json res ;;
  prompt_len <- lift (rbind (json_index obj "meta_info") (fun m => json_index m "prompt_tokens")) ;;
  start <- lift (max_sub2 prompt_len) ;;
  data <- _add_images s (select_score_data s choices start) ;;
  res <- http_request (generate_request self data false) ;;
  _ <- _assert_success res ;;
  obj <- res_json res ;;
  rs <- lift (py_iter obj) ;;
  normalized_prompt_logprobs <- lift (mapR (meta_field "normalized_prompt_logprob") rs) ;;
  idx <- lift (np_argmax normalized_prompt_logprobs) ;;
  decision <- lift (list_index choices idx) ;;
  input_token_logprobs <- lift (mapR (meta_field "input_token_logprobs") rs) ;;
  output_token_logprobs <- lift (mapR (meta_field "output_token_logprobs") rs) ;;
  ret (decision, normalized_prompt_logprobs, input_token_logprobs, output_token_logprobs).

(** [concatenate_and_append] *)
Definition concatenate_and_append (self : RuntimeEndpoint) (src_rids : list string)
    (dst_rid : string) : M unit :=
  res <- http_request (mkRequest (base_url self ++ "/concate_and_append_request")
                         (Some (JObj [("src_rids", JList (map JStr src_rids));
                                      ("dst_rid", JStr dst_rid)]))
                         false (api_key self) (verify self)) ;;
  _assert_success res.

(** [get_model_name] *)
Definition get_model_name (self : RuntimeEndpoint) : json + py_error :=
  json_index (model_info self) "model_path".

(** [get_chat_template] *)
Definition get_chat_template (self : RuntimeEndpoint) : string := chat_template self.

(** [flush_cache]: the keyword arguments are evaluated first, among them
    [auth_token=self.auth_token]. *)
Definition flush_cache (self : RuntimeEndpoint) : M unit :=
  tok <- getattr self "auth_token" ;;
  v <- getattr self "verify" ;;
  res <- http_request (mkRequest (base_url self ++ "/flush_cache") None false
                         (cred_of tok) (cred_of v)) ;;
  _assert_success res.

(** [get_server_args] *)
Definition get_server_args (self : RuntimeEndpoint) : M json :=
  tok <- getattr self "auth_token" ;;
  v <- getattr self "verify" ;;
  res <- http_request (mkRequest (base_url self ++ "/get_server_args") None false
                         (cred_of tok) (cred_of v)) ;;
  _ <- _assert_success res ;;
  res_json res.

(** [RuntimeEndpoint.__init__] *)
Definition init (url : string) (key : option string) (vfy : option string) : M RuntimeEndpoint :=
  res <- http_request (mkRequest (url ++ "/get_model_info") None false key vfy) ;;
  _ <- _assert_success res ;;
  info <- res_json res ;;
  path <- lift (json_index info "model_path") ;;
  ret (mkRuntimeEndpoint true url key vfy info (get_chat_template_by_model_path path)).

End Endpoint.

(** ** More of [RuntimeEndpoint]: priming calls and streaming *)

(** A response to [http_request(..., stream=True)]: status, body (read by
    [_assert_success] on failure) and the raw lines
    [res.iter_lines(decode_unicode=False)] yields. *)
Record stream_response : Type := mkStreamResponse {
  sstatus_code : Z;
  sres_body : option json;
  slines : list (list byte)
}.

Section EndpointMore.

Variable server : request -> option response.
Variable stream_server : request -> option stream_response.
Variable to_srt_kwargs : SglSamplingParams -> list (string * json).
Variable skip_special_tokens_in_output : bool.
Variable spaces_between_special_tokens_in_out : bool.
Variable json_loads : string -> option json.
(** [bytes.decode("utf-8")]: [None] when the bytes are not valid UTF-8. *)
Variable utf8_decode : list byte -> option string.

(** [http_request(..., stream=True)]. *)
Definition http_request_stream (r : request) : M stream_response :=
  fun log => match stream_server r with
             | Some res => (inl res, (log ++ [r])%list)
             | None => (inr ConnectionError, (log ++ [r])%list)
             end.

(** [generate_stream], iterated to its end: the pairs it yielded, and the
    exception it raised after them ([None] when the loop ended normally).
    Errors raised before the first line is read are raised by the
    computation itself. *)
Definition generate_stream (self : RuntimeEndpoint) (s : StreamExecutor) (sp : SglSamplingParams)
  : M (list (string * json) * option py_error) :=
  data <- lift (build_data to_srt_kwargs skip_special_tokens_in_output
                  spaces_between_special_tokens_in_out s sp) ;;
  data <- _add_images s (dict_set "stream" (JBool true) data) ;;
  res <- http_request_stream (generate_request self data true) ;;
  _ <- _assert_success (mkResponse (sstatus_code res) (sres_body res)) ;;
  match stream_loop_raw json_loads utf8_decode 0 (slines res) with
  | (ys, inl _) => ret (ys, None)
  | (ys, inr e) => ret (ys, Some e)
  end.

(** [cache_prefix] *)
Definition cache_prefix (self : RuntimeEndpoint) (prefix_str : string) : M unit :=
  res <- http_request server (mkRequest (base_url self ++ "/generate")
                         (Some (JObj [("text", JStr prefix_str);
                                      ("sampling_params", JObj [("max_new_tokens", JInt 0)])]))
                         false (api_key self) (verify self)) ;;
  _assert_success res.

(** [commit_lazy_operations] *)
Definition commit_lazy_operations (self : RuntimeEndpoint) (s : StreamExecutor) : M unit :=
  data <- _add_images s (dict_of [("text", JStr (text_ s));
                                  ("sampling_params", JObj [("max_new_tokens", JInt 0)])]) ;;
  res <- http_request server (generate_request self data false) ;;
  _assert_success res.

(** [fill_image] *)
Definition fill_image (self : RuntimeEndpoint) (s : StreamExecutor) : M unit :=
  data <- _add_images s (dict_of [("text", JStr (text_ s));
                                  ("sampling_params", JObj [("max_new_tokens", JInt 0)])]) ;;
  res <- http_request server (generate_request self data false) ;;
  _assert_success res.

End EndpointMore.

(** ** The bounded test runner: [run_unittest_files] *)

Module Runner.

(** How the worker process of one test file behaves: it exits with an
    exit code before the per-file timeout, or it is still running when
    [run_with_timeout] gives up. *)
Inductive worker : Type :=
| Finishes (exitcode : Z)
| Hangs.

(** Observable actions of the runner, in order. *)
Inductive event : Type :=
| Start (filename : string)        (* p.start() *)
| Terminate (filename : string)    (* p.terminate() *)
| Sleep (secs : nat)               (* time.sleep *)
| Print (msg : string).

(** A Python return value of [run_unittest_files]: an [int] or a [bool]. *)
Inductive pyret : Type :=
| RetInt (z : Z)
| RetBool (b : bool).

(** The integer a return value compares equal to ([False == 0]). *)
Definition py_int (v : pyret) : Z :=
  match v with RetInt z => z | RetBool b => if b then 1 else 0 end.

Definition timeout_msg : string :=
  "
Timeout after {timeout_per_file} seconds when running {filename}
".

(** Where the [for] loop ends: falling off / [break] with the value of
    [success], or a [return] from inside it. *)
Inductive loop_end : Type :=
| LoopExit (success : bool)
| LoopReturn (v : pyret).

Section Run.

Variable behaviour : string -> worker.

(** [run_with_timeout(run_one_file, timeout=...)]: starts the worker and
    joins it; [TimeoutError] when it is still alive at the deadline. *)
Definition run_with_timeout (filename : string) : list event * (Z + py_error) :=
  match behaviour filename with
  | Finishes code => ([Start filename], inl code)
  | Hangs => ([Start filename], inr TimeoutError)
  end.

(** The [for filename in files] loop. *)
Fixpoint run_loop (files : list string) (success : bool) : list event * loop_end :=
  match files with
  | [] => ([], LoopExit success)
  | filename :: rest =>
      match run_with_timeout filename with
      | (ev, inl exitcode) =>
          if negb (Z.eqb exitcode 0) then (ev, LoopExit false)
          else let '(ev', r) := run_loop rest success in ((ev ++ ev')%list, r)
      | (ev, inr _) =>
          ((ev ++ [Terminate filename; Sleep 5; Print timeout_msg])%list, LoopReturn (RetBool false))
      end
  end.

(** [run_unittest_files(files, timeout_per_file)] *)
Definition run_unittest_files (files : list string) : list event * pyret :=
  match run_loop files true with
  | (ev, LoopReturn v) => (ev, v)
  | (ev, LoopExit success) =>
      if success then ((ev ++ [Print "Success."])%list, RetInt 0)
      else ((ev ++ [Print "Fail."])%list, RetInt (-1))
  end.

End Run.

End Runner.

(** ** Statements about the endpoint *)

(** [vs[i]] is a maximal entry and every earlier entry is strictly smaller. *)
Definition is_first_argmax (vs : list Q) (i : nat) : Prop :=
  exists v, nth_error vs i = Some v /\
    (forall j w, nth_error vs j = Some w -> (w <= v)%Q) /\
    (forall j w, (j < i)%nat -> nth_error vs j = Some w -> (w < v)%Q).

(** The [image_data] field of a request's JSON body. *)
Definition image_field (r : request) : option json :=
  match req_json r with
  | Some (JObj d) => dict_get "image_data" d
  | _ => None
  end.

(** A server for examples: it answers a priming request with
    [prompt_tokens = 3] and a scoring request with three entries whose
    normalized prompt log-probabilities are 1/2, 3/4 and 3/4. *)
Definition score_entry (v : Q) : json :=
  JObj [("meta_info", JObj [("normalized_prompt_logprob", JFloat v);
                           ("input_token_logprobs", JList []);
                           ("output_token_logprobs", JList [])])].

Definition score_server (r : request) : option response :=
  match req_json r with
  | Some (JObj d) =>
      match dict_get "text" d with
      | Some (JStr _) => Some (mkResponse 200 (Some (JObj [("meta_info", JObj [("prompt_tokens", JInt 3)])])))
      | Some (JList _) => Some (mkResponse 200 (Some (JList [score_entry (1 # 2); score_entry (3 # 4);
                                                              score_entry (3 # 4)])))
      | _ => None
      end
  | _ => None
  end.

(** What [_assert_success] makes of the answer to one request. *)
Definition call_outcome (answer : option response) : unit + py_error :=
  match answer with
  | None => inr ConnectionError
  | Some res =>
      if Z.eqb (status_code res) 200 then inl tt
      else match res_body res with Some j => inr (RuntimeError j) | None => inr JSONDecodeError end
  end.

(** A payload after [_add_images] for a state with at most one image. *)
Definition with_image (s : StreamExecutor) (data : dict) : dict :=
  match images_ s with
  | [] => data
  | img :: _ => dict_set "image_data" (JStr (snd img)) data
  end.

(** The files a run started, in order. *)
Definition started (ev : list Runner.event) : list string :=
  flat_map (fun e => match e with Runner.Start f => [f] | _ => [] end) ev.

(** ** Benchmark helpers of [test_utils.py] *)

Module TestUtils.

(** Python [x[i]] for [i = 0] on a decoded JSON value. *)
Definition index0 (j : json) : json + py_error :=
  match j with
  | JList (x :: _) => inl x
  | JList [] => inr IndexError
  | JStr (String c _) => inl (JStr (String c EmptyString))
  | JStr EmptyString => inr IndexError
  | JObj _ => inr (KeyError "0")
  | _ => inr TypeError
  end.

(** Python [x[n:]] on a string or a list; other values are not sliceable. *)
Definition slice_from (n : nat) (j : json) : json + py_error :=
  match j with
  | JStr x => inl (JStr (str_drop n x))
  | JList l => inl (JList (skipn n l))
  | _ => inr TypeError
  end.

(** [x.get(k, 0)] on a decoded JSON value. *)
Definition get_or_zero (k : string) (j : json) : json + py_error :=
  match j with
  | JObj kvs => inl (match dict_get k kvs with Some v => v | None => JInt 0 end)
  | _ => inr (AttributeError "get")
  end.

Section Helpers.

(** [requests.post]: [None] when the server cannot be reached. *)
Variable post : request -> option response.

Definition requests_post (url : string) (data : json) : M response :=
  fun log => let r := mkRequest url (Some data) false None None in
             match post r with
             | Some res => (inl res, (log ++ [r])%list)
             | None => (inr ConnectionError, (log ++ [r])%list)
             end.

(** [assert res.status_code == 200] *)
Definition assert_200 (res : response) : M unit :=
  if Z.eqb (status_code res) 200 then ret tt else raise (AssertionError "").

(** [assert url is not None] *)
Definition assert_url (url : option string) : M string :=
  match url with Some u => ret u | None => raise (AssertionError "") end.

(** The request [call_select_lightllm] sends for one choice. *)
Definition lightllm_data (context choice : string) : json :=
  JObj [("inputs", JStr (context ++ choice));
        ("parameters", JObj [("max_new_tokens", JInt 1)])].

(** The loop of [call_select_lightllm]: one request per choice, in order;
    every score appended is 0. *)
Fixpoint lightllm_scores (u context : string) (choices : list string) : M (list json) :=
  match choices with
  | [] => ret []
  | c :: rest =>
      res <- requests_post u (lightllm_data context c) ;;
      _ <- assert_200 res ;;
      scores <- lightllm_scores u context rest ;;
      ret (JInt 0 :: scores)
  end.

(** [call_select_lightllm] *)
Definition call_select_lightllm (context : string) (choices : list string) (url : option string)
  : M nat :=
  u <- assert_url url ;;
  scores <- lightllm_scores u context choices ;;
  lift (np_argmax scores).

(** The request [call_select_vllm] sends for one choice. *)
Definition vllm_select_data (context choice : string) : json :=
  JObj [("prompt", JStr (context ++ choice)); ("max_tokens", JInt 1); ("prompt_logprobs", JInt 1)].

(** The loop of [call_select_vllm]: [res.json().get("prompt_score", 0)]
    for each choice, in order. *)
Fixpoint vllm_scores (u context : string) (choices : list string) : M (list json) :=
  match choices with
  | [] => ret []
  | c :: rest =>
      res <- requests_post u (vllm_select_data context c) ;;
      _ <- assert_200 res ;;
      obj <- res_json res ;;
      score <- lift (get_or_zero "prompt_score" obj) ;;
      scores <- vllm_scores u context rest ;;
      ret (score :: scores)
  end.

(** [call_select_vllm] *)
Definition call_select_vllm (context : string) (choices : list string) (url : option string)
  : M nat :=
  u <- assert_url url ;;
  scores <- vllm_scores u context choices ;;
  lift (np_argmax scores).

(** The completion part of [call_generate_vllm] and [call_generate_outlines]:
    the returned texts with the echoed prompt cut off by length. *)
Definition strip_prompt (prompt : string) (n : Z) (obj : json) : json + py_error :=
  rbind (json_index obj "text") (fun texts =>
    if Z.eqb n 1 then rbind (index0 texts) (slice_from (String.length prompt))
    else rbind (py_iter texts) (fun xs =>
           rbind (mapR (slice_from (String.length prompt)) xs) (fun ys => inl (JList ys)))).

(** [call_generate_vllm] *)
Definition call_generate_vllm (prompt : string) (temperature max_tokens stop : json) (n : Z)
    (url : option string) : M json :=
  u <- assert_url url ;;
  res <- requests_post u (JObj [("prompt", JStr prompt); ("temperature", temperature);
                                ("max_tokens", max_tokens); ("stop", stop); ("n", JInt n)]) ;;
  _ <- assert_200 res ;;
  obj <- res_json res ;;
  lift (strip_prompt prompt n obj).

(** [call_generate_outlines] *)
Definition call_generate_outlines (prompt : string) (temperature max_tokens stop regex : json)
    (n : Z) (url : option string) : M json :=
  u <- assert_url url ;;
  res <- requests_post u (JObj [("prompt", JStr prompt); ("temperature", temperature);
                                ("max_tokens", max_tokens); ("stop", stop); ("regex", regex);
                                ("n", JInt n)]) ;;
  _ <- assert_200 res ;;
  obj <- res_json res ;;
  lift (strip_prompt prompt n obj).

End Helpers.

(** [str.split(":")] *)
Definition colon : ascii := ":"%char.

Fixpoint split_aux (sep : ascii) (s cur : string) : list string :=
  match s with
  | EmptyString => [cur]
  | String c s' => if Ascii.eqb c sep then cur :: split_aux sep s' ""
                   else split_aux sep s' (cur ++ String c EmptyString)
  end.

Definition split_colon (s : string) : list string := split_aux colon s "".

(** The command [popen_launch_server] passes to [subprocess.Popen]; the
    launch itself and the readiness polling that follow are not modelled. *)
Definition launch_command (model base_url : string) (api_key : option string)
    (other_args : list string) : list string + py_error :=
  match split_colon base_url with
  | [_; host; port] =>
      let host := str_drop 2 host in
      let command := (["python3"; "-m"; "sglang.launch_server"; "--model-path"; model;
                       "--host"; host; "--port"; port] ++ other_args)%list in
      match api_key with
      | Some k => if String.eqb k "" then inl command else inl (command ++ ["--api-key"; k])%list
      | None => inl command
      end
  | _ => inr ValueError
  end.

End TestUtils.

(** [m] issues at most [n] requests, each satisfying [P], and only
    appends to the log. *)
Definition appends {A : Type} (P : request -> Prop) (n : nat) (m : M A) : Prop :=
  forall log, exists rest, snd (m log) = (log ++ rest)%list /\ (length rest <= n)%nat /\ Forall P rest.

(** What every request of [select] looks like. *)
Definition select_request_ok (self : RuntimeEndpoint) (s : StreamExecutor) (r : request) : Prop :=
  req_url r = (base_url self ++ "/generate")%string /\ req_stream r = false /\
  req_api_key r = api_key self /\ req_verify r = verify self /\
  image_field r = match images_ s with [img] => Some (JStr (snd img)) | _ => None end.

(** A decoder that reads every payload as the cumulative text itself. *)
Definition echo_loads (s : string) : option json :=
  Some (JObj [("text", JStr s); ("meta_info", JNull)]).

(** A decoder that accepts only payloads starting with a letter [a]. *)
Definition json_object_loads (s : string) : option json :=
  match s with
  | String "a"%char _ => Some (JObj [("text", JStr s); ("meta_info", JNull)])
  | _ => None
  end.

(** A stream server for examples: it answers with three lines. *)
Definition three_lines (r : request) : option stream_response :=
  Some (mkStreamResponse 200 None (map list_byte_of_string [""; "data:a"; "data:ab"])).

(** A decoder for examples: the byte 0xff is never valid UTF-8; other
    bytes are read one character each. *)
Definition ascii_decode (b : list byte) : option string :=
  if existsb (fun x => Byte.eqb x xff) b then None else Some (string_of_list_byte b).

(** A server for examples: it reports the model's path. *)
Definition info_server (r : request) : option response :=
  Some (mkResponse 200 (Some (JObj [("model_path", JStr "meta-llama/Llama-3")]))).

(** A vLLM server for examples: choice [b] scores highest, [c] has no score. *)
Definition vllm_answer (c : string) : list (string * json) :=
  if String.eqb c "a" then [("prompt_score", JFloat (-3 # 1))]
  else if String.eqb c "b" then [("prompt_score", JFloat (-1 # 1))]
  else [].

(** Three test files A, B, C: only B fails. *)
Definition units_abc (g : string) : Runner.worker :=
  if String.eqb g "B" then Runner.Finishes 1 else Runner.Finishes 0.

(** Example values. *)
Definition sample_params : SglSamplingParams := mkSamplingParams DtypeNone None None None None.
Definition sample_endpoint : RuntimeEndpoint := mkRuntimeEndpoint true "http://h" None None JNull "t".



(** * Proofs *)

(** ** Facts about strings *)

Lemma string_length_app (a d : string) :
  String.length (a ++ d) = String.length a + String.length d.
Proof. induction a as [|c a IH]; simpl; auto. Qed.

Lemma str_drop_app (a d : string) : str_drop (String.length a) (a ++ d) = d.
Proof. induction a as [|c a IH]; simpl; auto. Qed.

Lemma string_app_nil (a : string) : (a ++ "")%string = a.
Proof. induction a as [|c a IH]; simpl; congruence. Qed.

Lemma string_app_assoc (a b c : string) : ((a ++ b) ++ c)%string = (a ++ (b ++ c))%string.
Proof. induction a as [|x a IH]; simpl; congruence. Qed.

Lemma total_len_concat (ys : list (string * json)) :
  total_len ys = String.length (concat_str (map fst ys)).
Proof.
  induction ys as [|y ys IH]; simpl; auto.
  rewrite string_length_app; lia.
Qed.

Lemma total_len_firstn_mono (ys : list (string * json)) (k1 k2 : nat) :
  k1 <= k2 -> total_len (firstn k1 ys) <= total_len (firstn k2 ys).
Proof.
  revert k1 k2; induction ys as [|y ys IH]; intros k1 k2 Hk.
  - rewrite !firstn_nil; auto.
  - destruct k1, k2; simpl; try lia.
    specialize (IH k1 k2 ltac:(lia)); lia.
Qed.

(** ** The stream loop over data frames *)

Section StreamProofs.

Variable json_loads : string -> option json.

Lemma stream_loop_data (pos : nat) (chunks : list string) (snaps : list (string * json)) :
  data_frames json_loads chunks snaps ->
  length (fst (stream_loop json_loads pos chunks)) = length chunks /\
  map snd (fst (stream_loop json_loads pos chunks)) = map snd snaps /\
  snd (stream_loop json_loads pos chunks) = inl (pos + total_len (fst (stream_loop json_loads pos chunks))).
Proof.
  intros H; revert pos; induction H as [|c s cs ss Hc _ IH]; intros pos; simpl.
  - rewrite Nat.add_0_r; auto.
  - rewrite Hc.
    destruct (IH (pos + String.length (str_drop pos (fst s)))) as (H1 & H2 & H3).
    destruct (stream_loop json_loads (pos + String.length (str_drop pos (fst s))) cs)
      as [ys fin] eqn:E; simpl in *.
    repeat split; try congruence.
    rewrite H3; f_equal; lia.
Qed.

Lemma stream_loop_firstn (pos : nat) (chunks : list string) (snaps : list (string * json)) (k : nat) :
  data_frames json_loads chunks snaps ->
  fst (stream_loop json_loads pos (firstn k chunks)) = firstn k (fst (stream_loop json_loads pos chunks)).
Proof.
  intros H; revert pos k; induction H as [|c s cs ss Hc _ IH]; intros pos k.
  - rewrite !firstn_nil; reflexivity.
  - destruct k as [|k]; simpl; [reflexivity|].
    rewrite Hc.
    specialize (IH (pos + String.length (str_drop pos (fst s))) k).
    destruct (stream_loop json_loads (pos + String.length (str_drop pos (fst s))) (firstn k cs))
      as [ys1 fin1].
    destruct (stream_loop json_loads (pos + String.length (str_drop pos (fst s))) cs)
      as [ys2 fin2].
    simpl in *; congruence.
Qed.

Lemma data_frames_firstn (chunks : list string) (snaps : list (string * json)) (k : nat) :
  data_frames json_loads chunks snaps ->
  data_frames json_loads (firstn k chunks) (firstn k snaps).
Proof.
  intros H; revert k; induction H as [|c s cs ss Hc _ IH]; intros k.
  - rewrite !firstn_nil; constructor.
  - destruct k; simpl; constructor; [exact Hc | apply IH].
Qed.

Lemma stream_loop_chain (prev : string) (chunks : list string) (snaps : list (string * json)) :
  data_frames json_loads chunks snaps ->
  prefix_chain (prev :: map fst snaps) ->
  (prev ++ concat_str (map fst (fst (stream_loop json_loads (String.length prev) chunks))))%string
  = last (prev :: map fst snaps) "".
Proof.
  intros H; revert prev; induction H as [|c s cs ss Hc _ IH]; intros prev Hch; simpl.
  - apply string_app_nil.
  - rewrite Hc.
    destruct Hch as [[d Hd] Hch].
    rewrite Hd, str_drop_app.
    rewrite <- string_length_app.
    specialize (IH (prev ++ d)%string).
    rewrite <- Hd in IH |- *.
    specialize (IH Hch).
    destruct (stream_loop json_loads (String.length (fst s)) cs) as [ys fin]; simpl in *.
    rewrite <- IH, Hd, string_app_assoc; reflexivity.
Qed.

End StreamProofs.

(** ** C1 *)

(** C1: for data frames whose snapshots S1..Sn each extend the previous one,
    [generate_stream] yields one delta per frame (with that frame's
    [meta_info]); the deltas concatenate to Sn; the cursor at the end is
    [len(Sn)]; after every prefix of the frames the cursor equals the total
    length emitted so far, and it never decreases from one frame to a later one. *)
Theorem generate_stream_deltas (json_loads : string -> option json)
    (chunks : list string) (snaps : list (string * json)) :
  data_frames json_loads chunks snaps ->
  prefix_chain (map fst snaps) ->
  length (fst (stream_loop json_loads 0 chunks)) = length snaps /\
  map snd (fst (stream_loop json_loads 0 chunks)) = map snd snaps /\
  concat_str (map fst (fst (stream_loop json_loads 0 chunks))) = last (map fst snaps) "" /\
  snd (stream_loop json_loads 0 chunks) = inl (String.length (last (map fst snaps) "")) /\
  (forall k, snd (stream_loop json_loads 0 (firstn k chunks))
             = inl (total_len (fst (stream_loop json_loads 0 (firstn k chunks))))) /\
  (forall k1 k2 p1 p2, k1 <= k2 ->
     snd (stream_loop json_loads 0 (firstn k1 chunks)) = inl p1 ->
     snd (stream_loop json_loads 0 (firstn k2 chunks)) = inl p2 ->
     p1 <= p2).
Proof.
  intros Hd Hch.
  assert (Hch0 : prefix_chain ("" :: map fst snaps)).
  { destruct snaps as [|s ss]; simpl in *; auto.
    split; [exists (fst s); reflexivity | exact Hch]. }
  pose proof (stream_loop_chain json_loads "" chunks snaps Hd Hch0) as Hc.
  assert (Hlast : last ("" :: map fst snaps) "" = last (map fst snaps) "").
  { destruct snaps; reflexivity. }
  rewrite Hlast in Hc; simpl in Hc.
  destruct (stream_loop_data json_loads 0 chunks snaps Hd) as (H1 & H2 & H3).
  assert (Hlen : length chunks = length snaps) by (eapply Forall2_length; exact Hd).
  split; [congruence|].
  split; [exact H2|].
  split; [exact Hc|].
  split; [rewrite H3, total_len_concat, Hc; reflexivity|].
  split.
  - intros k.
    destruct (stream_loop_data json_loads 0 (firstn k chunks) (firstn k snaps)
                (data_frames_firstn json_loads chunks snaps k Hd)) as (_ & _ & Hk).
    exact Hk.
  - intros k1 k2 p1 p2 Hk E1 E2.
    destruct (stream_loop_data json_loads 0 (firstn k1 chunks) (firstn k1 snaps)
                (data_frames_firstn json_loads chunks snaps k1 Hd)) as (_ & _ & Hk1).
    destruct (stream_loop_data json_loads 0 (firstn k2 chunks) (firstn k2 snaps)
                (data_frames_firstn json_loads chunks snaps k2 Hd)) as (_ & _ & Hk2).
    rewrite E1 in Hk1; rewrite E2 in Hk2.
    injection Hk1 as ->; injection Hk2 as ->.
    rewrite !(stream_loop_firstn json_loads 0 chunks snaps _ Hd).
    apply total_len_firstn_mono; exact Hk.
Qed.

Lemma generate_stream_deltas_witness :
  let chunks := ["data:a"; "data:ab"; "data:abc"] in
  let snaps := [("a", JNull); ("ab", JNull); ("abc", JNull)] in
  (data_frames echo_loads chunks snaps /\ prefix_chain (map fst snaps)) /\
  concat_str (map fst (fst (stream_loop echo_loads 0 chunks))) = "abc".
Proof.
  intros chunks snaps.
  assert (Hd : data_frames echo_loads chunks snaps).
  { repeat constructor. }
  assert (Hch : prefix_chain (map fst snaps)).
  { simpl; repeat split; [exists "b"; reflexivity | exists "c"; reflexivity]. }
  split; [split; assumption|].
  destruct (generate_stream_deltas echo_loads chunks snaps Hd Hch) as (_ & _ & H & _).
  exact H.
Defined.

(** ** The runner *)

Module RunnerProofs.
Import Runner.

Lemma run_loop_ok_prefix (behaviour : string -> worker) (pre rest : list string) :
  Forall (fun g => behaviour g = Finishes 0) pre ->
  run_loop behaviour (pre ++ rest) true
  = ((map Start pre ++ fst (run_loop behaviour rest true))%list,
     snd (run_loop behaviour rest true)).
Proof.
  intros H; induction H as [|g pre Hg _ IH]; simpl.
  - destruct (run_loop behaviour rest true); reflexivity.
  - unfold run_with_timeout; rewrite Hg; simpl.
    rewrite IH; reflexivity.
Qed.

(** C5: units run one after the other in input order; the first unit whose
    worker exits with a non-zero code is the last one started, and the
    result is -1 (failure); when every worker exits with 0 all units are
    started in order and the result is 0 (success). *)
Theorem run_unittest_files_fail_fast (behaviour : string -> worker) :
  (forall (pre post : list string) (f : string) (code : Z),
     Forall (fun g => behaviour g = Finishes 0) pre ->
     behaviour f = Finishes code -> code <> 0%Z ->
     run_unittest_files behaviour (pre ++ f :: post)
     = ((map Start pre ++ [Start f; Print "Fail."])%list, RetInt (-1))) /\
  (forall files : list string,
     Forall (fun g => behaviour g = Finishes 0) files ->
     run_unittest_files behaviour files
     = ((map Start files ++ [Print "Success."])%list, RetInt 0)).
Proof.
  split.
  - intros pre post f code Hpre Hf Hc.
    unfold run_unittest_files.
    rewrite run_loop_ok_prefix by exact Hpre.
    simpl; unfold run_with_timeout; rewrite Hf.
    apply Z.eqb_neq in Hc; rewrite Hc; simpl.
    rewrite <- app_assoc; reflexivity.
  - intros files Hf.
    unfold run_unittest_files.
    pose proof (run_loop_ok_prefix behaviour files [] Hf) as E.
    rewrite app_nil_r in E; rewrite E; simpl; rewrite app_nil_r; reflexivity.
Qed.

Lemma run_unittest_files_fail_fast_witness :
  run_unittest_files units_abc ["A"; "B"; "C"] = ([Start "A"; Start "B"; Print "Fail."], RetInt (-1)) /\
  run_unittest_files units_abc ["A"; "C"] = ([Start "A"; Start "C"; Print "Success."], RetInt 0).
Proof.
  destruct (run_unittest_files_fail_fast units_abc) as [H1 H2].
  split.
  - apply (H1 ["A"] ["C"] "B" 1%Z); [repeat constructor | reflexivity | discriminate].
  - apply H2; repeat constructor.
Defined.

(** C4: a worker still running at the timeout is terminated, the runner
    sleeps 5 seconds and starts no later unit, but it returns [False],
    which equals 0, the value it returns on overall success. *)
Theorem run_unittest_files_timeout_returns_false :
  run_unittest_files (fun _ => Hangs) ["test_a.py"; "test_b.py"]
  = ([Start "test_a.py"; Terminate "test_a.py"; Sleep 5; Print timeout_msg], RetBool false) /\
  py_int (snd (run_unittest_files (fun _ => Hangs) ["test_a.py"; "test_b.py"]))
  = py_int (snd (run_unittest_files (fun _ => Finishes 0) ["test_a.py"; "test_b.py"])).
Proof. split; reflexivity. Qed.

End RunnerProofs.

(** ** Dictionaries and images *)

Lemma dict_get_set_same (k : string) (v : json) (d : dict) :
  dict_get k (dict_set k v d) = Some v.
Proof.
  induction d as [|[k' v'] d IH]; simpl.
  - rewrite String.eqb_refl; reflexivity.
  - destruct (String.eqb k k') eqn:E; simpl.
    + rewrite String.eqb_refl; reflexivity.
    + rewrite E; exact IH.
Qed.

Lemma dict_get_set_other (k k' : string) (v : json) (d : dict) :
  k <> k' -> dict_get k' (dict_set k v d) = dict_get k' d.
Proof.
  intros Hne; induction d as [|[k'' v''] d IH]; simpl.
  - apply String.eqb_neq in Hne; rewrite String.eqb_sym, Hne; reflexivity.
  - destruct (String.eqb k k'') eqn:E; simpl.
    + apply String.eqb_eq in E; subst k''.
      apply String.eqb_neq in Hne; rewrite String.eqb_sym, Hne; reflexivity.
    + destruct (String.eqb k' k''); [reflexivity | exact IH].
Qed.

Lemma add_images_none (s : StreamExecutor) (data : dict) (log : list request) :
  images_ s = [] -> _add_images s data log = (inl data, log).
Proof. intros H; unfold _add_images; rewrite H; reflexivity. Qed.

Lemma add_images_one (s : StreamExecutor) (img : string * string) (data : dict) (log : list request) :
  images_ s = [img] ->
  _add_images s data log = (inl (dict_set "image_data" (JStr (snd img)) data), log).
Proof. intros H; unfold _add_images; rewrite H; reflexivity. Qed.

Lemma add_images_many (s : StreamExecutor) (data : dict) (log : list request) :
  (2 <= length (images_ s))%nat ->
  _add_images s data log = (inr (AssertionError "Only support one image."), log).
Proof.
  intros H; unfold _add_images.
  destruct (images_ s) as [|a [|b l]]; simpl in H; try lia; reflexivity.
Qed.

(** ** C6 *)

(** C6: with a temperature above 1e-5, [select] raises the assertion and
    the request log is unchanged (no request was issued); with a
    temperature of at most 1e-5 the check passes: [select] behaves exactly
    as with temperature 0. *)
Theorem select_temperature_check (server : request -> option response) (self : RuntimeEndpoint)
    (s : StreamExecutor) (choices : list string) (log : list request) :
  (forall t : Q, (select_threshold < t)%Q ->
     select server self s choices t log = (inr (AssertionError ""), log)) /\
  (forall t : Q, (t <= select_threshold)%Q ->
     select server self s choices t log = select server self s choices 0 log).
Proof.
  split; intros t Ht; unfold select.
  - assert (E : Qle_bool t select_threshold = false).
    { destruct (Qle_bool t select_threshold) eqn:E; [|reflexivity].
      apply Qle_bool_iff in E. exfalso; apply (Qlt_not_le _ _ Ht E). }
    rewrite E; reflexivity.
  - assert (E : Qle_bool t select_threshold = true) by (apply Qle_bool_iff; exact Ht).
    rewrite E; reflexivity.
Qed.

Lemma select_temperature_check_witness :
  select (fun _ => None) (mkRuntimeEndpoint true "http://h" None None JNull "t")
    (mkStreamExecutor "Q:" []) ["a"] (1 # 10) []
  = (inr (AssertionError ""), []).
Proof.
  destruct (select_temperature_check (fun _ => None) (mkRuntimeEndpoint true "http://h" None None JNull "t")
              (mkStreamExecutor "Q:" []) ["a"] []) as [H _].
  apply H; reflexivity.
Defined.

(** ** C8 *)

(** C8: on every session, [flush_cache] and [get_server_args] raise
    [AttributeError] for [auth_token] before issuing any request, whatever
    the server would answer: neither a non-success status nor an
    unreachable server is involved. *)
Theorem proxy_calls_attribute_error (server : request -> option response)
    (self : RuntimeEndpoint) (log : list request) :
  flush_cache server self log = (inr (AttributeError "auth_token"), log) /\
  get_server_args server self log = (inr (AttributeError "auth_token"), log).
Proof. split; reflexivity. Qed.

(** ** C9 *)

(** C9 (as the code has it): [concatenate_and_append] issues exactly one
    request, to [/concate_and_append_request] under the base address, with
    the body [{"src_rids": ..., "dst_rid": ...}] and no check on the ids;
    its outcome depends only on the server's answer: [ConnectionError] when
    unreachable, [RuntimeError] carrying the decoded body on a non-200
    status (a decoding error when the body is not JSON), success on 200. *)
Theorem concatenate_and_append_request_spec (server : request -> option response)
    (self : RuntimeEndpoint) (src_rids : list string) (dst_rid : string) (log : list request) :
  let r := mkRequest (base_url self ++ "/concate_and_append_request")
             (Some (JObj [("src_rids", JList (map JStr src_rids)); ("dst_rid", JStr dst_rid)]))
             false (api_key self) (verify self) in
  concatenate_and_append server self src_rids dst_rid log
  = (match server r with
     | None => inr ConnectionError
     | Some res =>
         if Z.eqb (status_code res) 200 then inl tt
         else match res_body res with
              | Some j => inr (RuntimeError j)
              | None => inr JSONDecodeError
              end
     end, (log ++ [r])%list).
Proof.
  intros r; unfold concatenate_and_append, bind, http_request.
  fold r.
  destruct (server r) as [res|]; [|reflexivity].
  unfold _assert_success, res_json, bind, ret, raise.
  destruct (Z.eqb (status_code res) 200); [reflexivity|].
  destruct (res_body res); reflexivity.
Qed.

(** The path the code uses is not [concatenate_and_append_request]. *)
Lemma concatenate_and_append_path_differs :
  snd (concatenate_and_append (fun _ => None) (mkRuntimeEndpoint true "http://h" None None JNull "t")
         ["r1"; "r2"] "r3" [])
  <> [mkRequest "http://h/concatenate_and_append_request"
        (Some (JObj [("src_rids", JList [JStr "r1"; JStr "r2"]); ("dst_rid", JStr "r3")]))
        false None None].
Proof. simpl; congruence. Qed.

(** ** C7 *)

Lemma build_data_no_image (to_srt_kwargs : SglSamplingParams -> list (string * json))
    (skip spaces : bool) (s : StreamExecutor) (sp : SglSamplingParams) (data : dict) :
  build_data to_srt_kwargs skip spaces s sp = inl data -> dict_get "image_data" data = None.
Proof.
  unfold build_data; intros H.
  destruct (dtype sp) as [| |ds|ds]; simpl in H;
    try (destruct (String.eqb ds "int"); simpl in H);
    try discriminate H;
    injection H as <-;
    destruct (return_logprob sp), (logprob_start_len sp), (top_logprobs_num sp),
      (return_text_in_logprobs sp); reflexivity.
Qed.

Lemma build_data_valid (to_srt_kwargs : SglSamplingParams -> list (string * json))
    (skip spaces : bool) (s : StreamExecutor) (sp : SglSamplingParams) :
  (dtype sp = DtypeNone \/ dtype_is_int (dtype sp) = true) ->
  exists data, build_data to_srt_kwargs skip spaces s sp = inl data.
Proof.
  unfold build_data; intros [H|H]; rewrite ?H.
  - eexists; reflexivity.
  - destruct (dtype sp); simpl in H |- *; try discriminate H; [eexists; reflexivity|].
    rewrite H; eexists; reflexivity.
Qed.

Lemma build_data_invalid (to_srt_kwargs : SglSamplingParams -> list (string * json))
    (skip spaces : bool) (s : StreamExecutor) (sp : SglSamplingParams) (e : py_error) :
  build_data to_srt_kwargs skip spaces s sp = inr e ->
  dtype sp <> DtypeNone /\ dtype_is_int (dtype sp) = false /\
  e = RuntimeError (JStr ("Invalid dtype: " ++ dtype_str (dtype sp))).
Proof.
  unfold build_data; destruct (dtype sp) as [| |ds|ds]; simpl; try discriminate.
  - destruct (String.eqb ds "int") eqn:E; simpl; [discriminate|].
    intros H; injection H as <-; repeat split; congruence.
  - intros H; injection H as <-; repeat split; congruence.
Qed.

(** After the payload is built and the images added, [generate] issues one
    request and no other. *)
Lemma generate_log (server : request -> option response)
    (to_srt_kwargs : SglSamplingParams -> list (string * json)) (skip spaces : bool)
    (self : RuntimeEndpoint) (s : StreamExecutor) (sp : SglSamplingParams)
    (log : list request) (data data' : dict) :
  build_data to_srt_kwargs skip spaces s sp = inl data ->
  _add_images s data log = (inl data', log) ->
  snd (generate server to_srt_kwargs skip spaces self s sp log)
  = (log ++ [generate_request self data' false])%list.
Proof.
  intros Hb Ha; unfold generate.
  cbv [bind lift]; rewrite Hb, Ha.
  cbv [http_request].
  destruct (server (generate_request self data' false)) as [res|]; [|reflexivity].
  cbv [bind _assert_success res_json ret raise lift].
  destruct (Z.eqb (status_code res) 200); destruct (res_body res) as [j|]; try reflexivity.
  destruct (json_index j "text"); try reflexivity.
  destruct (json_index j "meta_info"); reflexivity.
Qed.

(** C7: with two or more images attached, [generate] raises before issuing
    any request: the image assertion, or (checked first) the invalid-dtype
    error, both caller contract violations. With exactly one image every
    request it issues carries that image's data under [image_data]; with no
    image the field is absent. For a valid dtype it issues exactly one
    request. *)
Theorem generate_image_contract (server : request -> option response)
    (to_srt_kwargs : SglSamplingParams -> list (string * json)) (skip spaces : bool)
    (self : RuntimeEndpoint) (s : StreamExecutor) (sp : SglSamplingParams) (log : list request) :
  ((2 <= length (images_ s))%nat ->
     exists e, generate server to_srt_kwargs skip spaces self s sp log = (inr e, log) /\
       (e = AssertionError "Only support one image." \/
        (dtype sp <> DtypeNone /\ dtype_is_int (dtype sp) = false /\
         e = RuntimeError (JStr ("Invalid dtype: " ++ dtype_str (dtype sp)))))) /\
  (forall img, images_ s = [img] ->
     exists rest, snd (generate server to_srt_kwargs skip spaces self s sp log) = (log ++ rest)%list /\
       Forall (fun r => image_field r = Some (JStr (snd img))) rest /\
       ((dtype sp = DtypeNone \/ dtype_is_int (dtype sp) = true) -> length rest = 1%nat)) /\
  (images_ s = [] ->
     exists rest, snd (generate server to_srt_kwargs skip spaces self s sp log) = (log ++ rest)%list /\
       Forall (fun r => image_field r = None) rest /\
       ((dtype sp = DtypeNone \/ dtype_is_int (dtype sp) = true) -> length rest = 1%nat)).
Proof.
  split; [|split].
  - intros Hi.
    destruct (build_data to_srt_kwargs skip spaces s sp) as [data|e] eqn:Eb.
    + exists (AssertionError "Only support one image."); split; [|left; reflexivity].
      unfold generate; cbv [bind lift]; rewrite Eb, (add_images_many s data log Hi); reflexivity.
    + exists e; split; [|right; exact (build_data_invalid _ _ _ _ _ _ Eb)].
      unfold generate; cbv [bind lift]; rewrite Eb; reflexivity.
  - intros img Hi.
    destruct (build_data to_srt_kwargs skip spaces s sp) as [data|e] eqn:Eb.
    + exists [generate_request self (dict_set "image_data" (JStr (snd img)) data) false].
      split; [apply (generate_log _ _ _ _ _ _ _ _ data); [exact Eb | apply add_images_one; exact Hi]|].
      split; [|reflexivity].
      constructor; [|constructor].
      unfold image_field, generate_request; simpl; apply dict_get_set_same.
    + exists []; split; [|split; [constructor|]].
      * unfold generate; cbv [bind lift]; rewrite Eb; simpl; rewrite app_nil_r; reflexivity.
      * intros Hv; destruct (build_data_valid to_srt_kwargs skip spaces s sp Hv) as [d Hd].
        congruence.
  - intros Hi.
    destruct (build_data to_srt_kwargs skip spaces s sp) as [data|e] eqn:Eb.
    + exists [generate_request self data false].
      split; [apply (generate_log _ _ _ _ _ _ _ _ data); [exact Eb | apply add_images_none; exact Hi]|].
      split; [|reflexivity].
      constructor; [|constructor].
      unfold image_field, generate_request; simpl.
      exact (build_data_no_image _ _ _ _ _ _ Eb).
    + exists []; split; [|split; [constructor|]].
      * unfold generate; cbv [bind lift]; rewrite Eb; simpl; rewrite app_nil_r; reflexivity.
      * intros Hv; destruct (build_data_valid to_srt_kwargs skip spaces s sp Hv) as [d Hd].
        congruence.
Qed.

Lemma generate_image_contract_witness :
  (2 <= length (images_ (mkStreamExecutor "Q:" [("a.png", "AAA"); ("b.png", "BBB")])))%nat /\
  generate (fun _ => None) (fun _ => []) true true sample_endpoint
    (mkStreamExecutor "Q:" [("a.png", "AAA"); ("b.png", "BBB")]) sample_params []
  = (inr (AssertionError "Only support one image."), []).
Proof.
  split; [simpl; lia|].
  destruct (generate_image_contract (fun _ => None) (fun _ => []) true true sample_endpoint
              (mkStreamExecutor "Q:" [("a.png", "AAA"); ("b.png", "BBB")]) sample_params [])
    as [H _].
  destruct (H ltac:(simpl; lia)) as [e [He [-> | [Hd _]]]]; [exact He|].
  exfalso; apply Hd; reflexivity.
Defined.

(** ** [np.argmax] *)

Lemma nth_error_app_lt {A : Type} (l r : list A) (j : nat) :
  (j < length l)%nat -> nth_error (l ++ r)%list j = nth_error l j.
Proof. intros H; apply nth_error_app1; exact H. Qed.

Lemma nth_error_snoc_cases {A : Type} (l : list A) (v w : A) (j : nat) :
  nth_error (l ++ [v])%list j = Some w -> nth_error l j = Some w \/ (j = length l /\ w = v).
Proof.
  intros H.
  destruct (Nat.lt_ge_cases j (length l)) as [Hl|Hl].
  - left; rewrite nth_error_app1 in H by exact Hl; exact H.
  - right; rewrite nth_error_app2 in H by exact Hl.
    destruct (j - length l)%nat eqn:E; simpl in H.
    + injection H as <-; split; [lia|reflexivity].
    + destruct n; discriminate H.
Qed.

Lemma argmax_from_spec (l P : list Q) (best : nat) (bv : Q) :
  nth_error P best = Some bv ->
  (forall j w, nth_error P j = Some w -> (w <= bv)%Q) ->
  (forall j w, (j < best)%nat -> nth_error P j = Some w -> (w < bv)%Q) ->
  is_first_argmax (P ++ l)%list (argmax_from (length P) best bv l).
Proof.
  revert P best bv; induction l as [|v r IH]; intros P best bv Hb Hle Hlt; simpl.
  - rewrite app_nil_r; exists bv; repeat split; auto.
  - replace (P ++ v :: r)%list with ((P ++ [v]) ++ r)%list by (rewrite <- app_assoc; reflexivity).
    assert (Hlen : S (length P) = length (P ++ [v])%list) by (rewrite length_app; simpl; lia).
    assert (Hbl : (best < length P)%nat) by (apply nth_error_Some; congruence).
    destruct (Qle_bool v bv) eqn:E; simpl.
    + apply Qle_bool_iff in E.
      rewrite Hlen; apply IH.
      * rewrite nth_error_app1 by exact Hbl; exact Hb.
      * intros j w Hj; apply nth_error_snoc_cases in Hj as [Hj|[_ ->]]; eauto.
      * intros j w Hjb Hj; apply (Hlt j w Hjb).
        rewrite nth_error_app1 in Hj by lia; exact Hj.
    + assert (Hv : (bv < v)%Q).
      { apply Qnot_le_lt; intros Hc; apply Qle_bool_iff in Hc; congruence. }
      rewrite Hlen; apply IH.
      * rewrite nth_error_app2 by lia; rewrite Nat.sub_diag; reflexivity.
      * intros j w Hj; apply nth_error_snoc_cases in Hj as [Hj|[_ ->]].
        -- apply Qlt_le_weak; apply Qle_lt_trans with bv; eauto.
        -- apply Qle_refl.
      * intros j w Hjb Hj; rewrite nth_error_app1 in Hj by exact Hjb.
        apply Qle_lt_trans with bv; eauto.
Qed.

Lemma np_argmax_spec (xs : list json) (i : nat) :
  np_argmax xs = inl i ->
  exists vs, mapR to_number xs = inl vs /\ is_first_argmax vs i.
Proof.
  unfold np_argmax, rbind.
  destruct (mapR to_number xs) as [vs|e]; [|discriminate].
  destruct vs as [|v r]; [discriminate|].
  intros H; injection H as <-.
  exists (v :: r); split; [reflexivity|].
  apply (argmax_from_spec r [v] 0 v); [reflexivity| |].
  - intros j w Hj; destruct j as [|[|j]]; simpl in Hj; try discriminate.
    injection Hj as <-; apply Qle_refl.
  - intros j w Hj; lia.
Qed.

(** ** [select] *)

Ltac crush H :=
  repeat (cbv [bind ret raise lift http_request _assert_success res_json _add_images] in H;
          match type of H with
          | context [match ?x with _ => _ end] => destruct x eqn:?
          | context [if ?x then _ else _] => destruct x eqn:?
          end;
          try discriminate H).

(** A successful [select] returned [choices[np.argmax(normalized_prompt_logprobs)]]. *)
Lemma select_success_inv (server : request -> option response) (self : RuntimeEndpoint)
    (s : StreamExecutor) (choices : list string) (t : Q) (log log' : list request)
    (d : string) (npl itl otl : list json) :
  select server self s choices t log = (inl (d, npl, itl, otl), log') ->
  exists i, np_argmax npl = inl i /\ nth_error choices i = Some d.
Proof.
  unfold select; intros H.
  crush H.
  injection H as <- <- _ _ _.
  match goal with
  | Hn : np_argmax ?l = inl ?i, Hd : list_index choices ?i = inl _ |- _ =>
      exists i; split; [exact Hn|];
      unfold list_index in Hd; destruct (nth_error choices i); congruence
  end.
Qed.

(** ** C2 *)

(** C2: when [select] returns, its decision is [choices[i]] where the
    returned normalized prompt log-probabilities are numbers, entry [i] is
    maximal, and every entry before [i] is strictly smaller (ties go to the
    first occurrence). *)
Theorem select_returns_first_argmax (server : request -> option response) (self : RuntimeEndpoint)
    (s : StreamExecutor) (choices : list string) (t : Q) (log log' : list request)
    (d : string) (npl itl otl : list json) :
  select server self s choices t log = (inl (d, npl, itl, otl), log') ->
  exists vs i, mapR to_number npl = inl vs /\ is_first_argmax vs i /\ nth_error choices i = Some d.
Proof.
  intros H.
  destruct (select_success_inv _ _ _ _ _ _ _ _ _ _ _ H) as (i & Hi & Hd).
  destruct (np_argmax_spec npl i Hi) as (vs & Hvs & Ha).
  exists vs, i; auto.
Qed.

Lemma select_returns_first_argmax_witness :
  exists vs i, mapR to_number [JFloat (1 # 2); JFloat (3 # 4); JFloat (3 # 4)] = inl vs /\
    is_first_argmax vs i /\ nth_error ["a"; "b"; "c"] i = Some "b".
Proof.
  eapply (select_returns_first_argmax score_server sample_endpoint (mkStreamExecutor "Q:" [])
            ["a"; "b"; "c"] 0 [] _ "b" _ [JList []; JList []; JList []] [JList []; JList []; JList []]).
  vm_compute; reflexivity.
Defined.

(** ** C10 *)

(** C10: a decision [select] returns is always an element of [choices]; with
    an empty [choices] list [select] never returns a value: it raises. *)
Theorem select_decision_in_choices (server : request -> option response) (self : RuntimeEndpoint)
    (s : StreamExecutor) (choices : list string) (t : Q) (log : list request) :
  (forall d npl itl otl log',
     select server self s choices t log = (inl (d, npl, itl, otl), log') -> In d choices) /\
  (choices = [] -> exists e, fst (select server self s choices t log) = inr e).
Proof.
  split.
  - intros d npl itl otl log' H.
    destruct (select_success_inv _ _ _ _ _ _ _ _ _ _ _ H) as (i & _ & Hd).
    eapply nth_error_In; exact Hd.
  - intros ->.
    destruct (select server self s [] t log) as [[[[[d npl] itl] otl]|e] log'] eqn:E.
    + destruct (select_success_inv _ _ _ _ _ _ _ _ _ _ _ E) as (i & _ & Hd).
      destruct i; discriminate Hd.
    + exists e; reflexivity.
Qed.

Lemma select_decision_in_choices_witness :
  exists e, fst (select score_server sample_endpoint (mkStreamExecutor "Q:" []) [] 0 []) = inr e.
Proof.
  destruct (select_decision_in_choices score_server sample_endpoint (mkStreamExecutor "Q:" []) [] 0 [])
    as [_ H].
  apply H; reflexivity.
Defined.

(** ** C3 *)

Lemma max_sub2_int (p : Z) : max_sub2 (JInt p) = inl (JInt (Z.max (p - 2) 0)).
Proof.
  unfold max_sub2; destruct (Z.ltb (p - 2) 0) eqn:E.
  - apply Z.ltb_lt in E; rewrite Z.max_r by lia; reflexivity.
  - apply Z.ltb_ge in E; rewrite Z.max_l by lia; reflexivity.
Qed.

(** C3: once the priming call reports [prompt_tokens = p] (any integer
    [p], including 0, 1 and 2), [select] issues exactly one more request:
    a single batched request whose [text] is [[prompt + c for c in
    choices]], with [max_new_tokens = 0], [return_logprob = True] and
    [logprob_start_len = max(p - 2, 0)]. *)
Theorem select_scoring_request (server : request -> option response) (self : RuntimeEndpoint)
    (s : StreamExecutor) (choices : list string) (t : Q) (log : list request)
    (b m : json) (p : Z) :
  (t <= select_threshold)%Q -> (length (images_ s) <= 1)%nat ->
  json_index b "meta_info" = inl m -> json_index m "prompt_tokens" = inl (JInt p) ->
  (forall r d, req_json r = Some (JObj d) -> dict_get "text" d = Some (JStr (text_ s)) ->
     server r = Some (mkResponse 200 (Some b))) ->
  exists pdata data,
    snd (select server self s choices t log)
    = (log ++ [generate_request self pdata false; generate_request self data false])%list /\
    dict_get "text" pdata = Some (JStr (text_ s)) /\
    dict_get "text" data = Some (JList (map (fun c => JStr (text_ s ++ c)) choices)) /\
    dict_get "sampling_params" data = Some (JObj [("max_new_tokens", JInt 0)]) /\
    dict_get "return_logprob" data = Some (JBool true) /\
    dict_get "logprob_start_len" data = Some (JInt (Z.max (p - 2) 0)).
Proof.
  intros Ht Hi Hb Hm Hsrv.
  assert (Et : Qle_bool t select_threshold = true) by (apply Qle_bool_iff; exact Ht).
  set (addimg := fun data : dict => match images_ s with
                                    | [] => data
                                    | img :: _ => dict_set "image_data" (JStr (snd img)) data
                                    end).
  assert (Ha : forall data lg, _add_images s data lg = (inl (addimg data), lg)).
  { intros data lg; unfold addimg.
    destruct (images_ s) as [|x [|y l]] eqn:E; simpl in Hi; try lia.
    - apply add_images_none; exact E.
    - apply add_images_one; exact E. }
  assert (Hg : forall k data, k <> "image_data" -> dict_get k (addimg data) = dict_get k data).
  { intros k data Hk; unfold addimg; destruct (images_ s); [reflexivity|].
    apply dict_get_set_other; congruence. }
  set (pdata := addimg (select_prime_data s)).
  set (data := addimg (select_score_data s choices (JInt (Z.max (p - 2) 0)))).
  assert (Hpt : dict_get "text" pdata = Some (JStr (text_ s))) by (apply Hg; discriminate).
  exists pdata, data.
  split; [|split; [exact Hpt|]; repeat split; unfold data; rewrite Hg by discriminate; reflexivity].
  unfold select; cbv [bind]; rewrite Et; cbv [ret].
  rewrite Ha; fold pdata.
  cbv [http_request].
  rewrite (Hsrv (generate_request self pdata false) pdata eq_refl Hpt).
  cbv [_assert_success res_json ret lift]; simpl.
  rewrite Hb; simpl; rewrite Hm; simpl.
  assert (Hmax : (if (p - 2 <? 0)%Z then JInt 0 else JInt (p - 2)) = JInt (Z.max (p - 2) 0)).
  { pose proof (max_sub2_int p) as E; unfold max_sub2 in E; congruence. }
  rewrite Hmax.
  rewrite Ha; fold data.
  destruct (server (generate_request self data false)) as [res|];
    [|simpl; rewrite <- app_assoc; reflexivity].
  cbv [bind _assert_success res_json ret raise lift].
  destruct (Z.eqb (status_code res) 200); destruct (res_body res); simpl;
    repeat match goal with
           | |- context [match ?x with _ => _ end] => destruct x
           end; simpl; rewrite <- ?app_assoc; reflexivity.
Qed.

Lemma select_scoring_request_witness :
  exists pdata data,
    snd (select score_server sample_endpoint (mkStreamExecutor "Q:" []) ["a"; "b"] 0 [])
    = [generate_request sample_endpoint pdata false; generate_request sample_endpoint data false] /\
    dict_get "text" pdata = Some (JStr "Q:") /\
    dict_get "text" data = Some (JList [JStr "Q:a"; JStr "Q:b"]) /\
    dict_get "sampling_params" data = Some (JObj [("max_new_tokens", JInt 0)]) /\
    dict_get "return_logprob" data = Some (JBool true) /\
    dict_get "logprob_start_len" data = Some (JInt 1).
Proof.
  apply (select_scoring_request score_server sample_endpoint (mkStreamExecutor "Q:" []) ["a"; "b"] 0 []
           (JObj [("meta_info", JObj [("prompt_tokens", JInt 3)])])
           (JObj [("prompt_tokens", JInt 3)]) 3).
  - vm_compute; discriminate.
  - simpl; lia.
  - reflexivity.
  - reflexivity.
  - intros r d Hr Hd; unfold score_server; rewrite Hr, Hd; reflexivity.
Defined.

(** ** The stream loop on arbitrary lines *)

Lemma str_drop_length (n : nat) (s : string) :
  String.length (str_drop n s) = String.length s - n.
Proof.
  revert n; induction s as [|c s IH]; intros [|n]; simpl; auto.
Qed.

Lemma str_drop_short (n : nat) (s : string) :
  String.length s <= n -> str_drop n s = "".
Proof.
  revert n; induction s as [|c s IH]; intros [|n] H; simpl in *; auto; try lia.
  apply IH; lia.
Qed.

Lemma classify_not_data (json_loads : string -> option json) (c : string) :
  String.prefix "data:" c = false -> classify json_loads c = Skipped.
Proof. intros H; unfold classify; rewrite H, andb_false_r; reflexivity. Qed.

Lemma classify_done_iff (json_loads : string -> option json) (c : string) :
  classify json_loads c = Done <-> c = "data: [DONE]".
Proof.
  split.
  - unfold classify; intros H.
    destruct (negb (String.eqb c "") && String.prefix "data:" c); [|discriminate H].
    destruct (String.eqb c "data: [DONE]") eqn:E; [apply String.eqb_eq; exact E|].
    destruct (json_loads (strip_nl (str_drop 5 c))) as [j|]; [|discriminate H].
    destruct (json_index j "text") as [[]|]; try discriminate H.
    destruct (json_index j "meta_info"); discriminate H.
  - intros ->; reflexivity.
Qed.

Lemma classify_data_line (json_loads : string -> option json) (c : string) :
  String.prefix "data:" c = true -> c <> "data: [DONE]" ->
  classify json_loads c =
    match json_loads (strip_nl (str_drop 5 c)) with
    | None => BadFrame JSONDecodeError
    | Some data =>
        match json_index data "text" with
        | inr e => BadFrame e
        | inl (JStr t) =>
            match json_index data "meta_info" with
            | inr e => BadFrame e
            | inl m => DataFrame t m
            end
        | inl _ => BadFrame TypeError
        end
    end.
Proof.
  intros Hp Hd; unfold classify.
  assert (Hne : String.eqb c "" = false).
  { destruct c; [discriminate Hp | reflexivity]. }
  apply String.eqb_neq in Hd.
  rewrite Hne, Hp, Hd; reflexivity.
Qed.

Lemma stream_loop_app_bad (json_loads : string -> option json) (pos : nat)
    (pre post : list string) (c : string) (e : py_error) (p : nat) :
  ~ In "data: [DONE]" pre -> snd (stream_loop json_loads pos pre) = inl p ->
  classify json_loads c = BadFrame e ->
  stream_loop json_loads pos (pre ++ c :: post) = (fst (stream_loop json_loads pos pre), inr e).
Proof.
  intros Hn Hs Hc; revert pos Hs; induction pre as [|c' pre IH]; intros pos Hs; simpl in *.
  - rewrite Hc; reflexivity.
  - assert (Hn' : ~ In "data: [DONE]" pre) by tauto.
    destruct (classify json_loads c') eqn:E.
    + apply IH; assumption.
    + apply classify_done_iff in E; tauto.
    + destruct (stream_loop json_loads (pos + String.length (str_drop pos text)) pre) as [ys fin] eqn:Er.
      simpl in Hs; subst fin.
      rewrite (IH Hn' _ ltac:(rewrite Er; reflexivity)), Er; reflexivity.
    + discriminate Hs.
Qed.

(** X1: on the raw lines of the body, a line that decodes as UTF-8 but
    does not start with [data:] (an empty keep-alive line, a comment,
    another event field) is ignored: the loop behaves as if only the
    other lines were sent; a line that is not valid UTF-8 raises
    [UnicodeDecodeError] whatever it starts with; and when every line
    decodes, the loop is [stream_loop] over the decoded lines. *)
Theorem stream_loop_raw_non_data_lines (json_loads : string -> option json)
    (utf8_decode : list byte -> option string) (pos : nat) (raws : list (list byte)) :
  stream_loop_raw json_loads utf8_decode pos raws
  = stream_loop_raw json_loads utf8_decode pos
      (filter (fun raw => match utf8_decode raw with
                          | Some c => String.prefix "data:" c
                          | None => true
                          end) raws) /\
  (forall raw rest, utf8_decode raw = None ->
     stream_loop_raw json_loads utf8_decode pos (raw :: rest) = ([], inr UnicodeDecodeError)) /\
  (forall cs, map utf8_decode raws = map Some cs ->
     stream_loop_raw json_loads utf8_decode pos raws = stream_loop json_loads pos cs).
Proof.
  split; [|split].
  - revert pos; induction raws as [|raw rest IH]; intros pos; [reflexivity|].
    simpl; destruct (utf8_decode raw) as [c|] eqn:Ed; [|simpl; rewrite Ed; reflexivity].
    destruct (String.prefix "data:" c) eqn:Hp.
    + simpl; rewrite Ed; destruct (classify json_loads c); try reflexivity.
      * apply IH.
      * rewrite IH; reflexivity.
    + rewrite (classify_not_data json_loads c Hp); apply IH.
  - intros raw rest Hd; simpl; rewrite Hd; reflexivity.
  - revert pos; induction raws as [|raw rest IH]; intros pos [|c cs] H; try discriminate H;
      [reflexivity|].
    injection H as Hd Hr; simpl; rewrite Hd.
    destruct (classify json_loads c); try reflexivity.
    + apply IH; exact Hr.
    + rewrite (IH _ cs Hr); reflexivity.
Qed.

Lemma stream_loop_raw_non_data_lines_witness :
  stream_loop_raw echo_loads ascii_decode 0
    [list_byte_of_string ": keep-alive"; list_byte_of_string "data:ab"; [xff]; list_byte_of_string "data:abc"]
  = ([("ab"%string, JNull)], inr UnicodeDecodeError).
Proof.
  destruct (stream_loop_raw_non_data_lines echo_loads ascii_decode 0
              [list_byte_of_string ": keep-alive"; list_byte_of_string "data:ab"; [xff];
               list_byte_of_string "data:abc"]) as [H1 _].
  rewrite H1; reflexivity.
Defined.

(** X2: the line [data: [DONE]] ends the stream: whatever follows it is
    never read, and the loop yields the same as if the stream had ended
    just before it. *)
Theorem stream_loop_stops_at_done (json_loads : string -> option json)
    (pos : nat) (pre post : list string) :
  stream_loop json_loads pos (pre ++ "data: [DONE]" :: post) = stream_loop json_loads pos pre.
Proof.
  revert pos; induction pre as [|c pre IH]; intros pos; [reflexivity|].
  simpl; destruct (classify json_loads c); try reflexivity.
  - apply IH.
  - rewrite IH; reflexivity.
Qed.

(** X3: a [data:] line that is not [data: [DONE]] and whose payload does
    not decode raises [JSONDecodeError]; a decoded object without ["text"]
    raises [KeyError('text')], and one with a string ["text"] but without
    ["meta_info"] raises [KeyError('meta_info')]. The pairs yielded by the
    earlier lines stay yielded, and no later line is read. *)
Theorem stream_loop_bad_frame (json_loads : string -> option json) (pos : nat)
    (pre post : list string) (c : string) (p : nat) :
  ~ In "data: [DONE]" pre -> snd (stream_loop json_loads pos pre) = inl p ->
  String.prefix "data:" c = true -> c <> "data: [DONE]" ->
  (json_loads (strip_nl (str_drop 5 c)) = None ->
     stream_loop json_loads pos (pre ++ c :: post)
     = (fst (stream_loop json_loads pos pre), inr JSONDecodeError)) /\
  (forall kvs, json_loads (strip_nl (str_drop 5 c)) = Some (JObj kvs) ->
     dict_get "text" kvs = None ->
     stream_loop json_loads pos (pre ++ c :: post)
     = (fst (stream_loop json_loads pos pre), inr (KeyError "text"))) /\
  (forall kvs t, json_loads (strip_nl (str_drop 5 c)) = Some (JObj kvs) ->
     dict_get "text" kvs = Some (JStr t) -> dict_get "meta_info" kvs = None ->
     stream_loop json_loads pos (pre ++ c :: post)
     = (fst (stream_loop json_loads pos pre), inr (KeyError "meta_info"))).
Proof.
  intros Hn Hs Hp Hd.
  pose proof (classify_data_line json_loads c Hp Hd) as Hc.
  split; [|split].
  - intros Hj; apply (stream_loop_app_bad json_loads pos pre post c _ p Hn Hs).
    rewrite Hc, Hj; reflexivity.
  - intros kvs Hj Ht; apply (stream_loop_app_bad json_loads pos pre post c _ p Hn Hs).
    rewrite Hc, Hj; simpl; rewrite Ht; reflexivity.
  - intros kvs t Hj Ht Hm; apply (stream_loop_app_bad json_loads pos pre post c _ p Hn Hs).
    rewrite Hc, Hj; simpl; rewrite Ht, Hm; reflexivity.
Qed.

Lemma stream_loop_bad_frame_witness :
  let pre := [""; "data:a"] in
  let c := "data:{" in
  (~ In "data: [DONE]" pre /\ snd (stream_loop json_object_loads 0 pre) = inl 1 /\
   String.prefix "data:" c = true /\ c <> "data: [DONE]" /\
   json_object_loads (strip_nl (str_drop 5 c)) = None) /\
  stream_loop json_object_loads 0 (pre ++ c :: ["data:abc"])
  = ([("a", JNull)], inr JSONDecodeError).
Proof.
  intros pre c.
  assert (Hn : ~ In "data: [DONE]" pre) by (simpl; intuition discriminate).
  assert (Hs : snd (stream_loop json_object_loads 0 pre) = inl 1) by reflexivity.
  assert (Hp : String.prefix "data:" c = true) by reflexivity.
  assert (Hd : c <> "data: [DONE]") by discriminate.
  assert (Hj : json_object_loads (strip_nl (str_drop 5 c)) = None) by reflexivity.
  split; [repeat split; assumption|].
  destruct (stream_loop_bad_frame json_object_loads 0 pre ["data:abc"] c 1 Hn Hs Hp Hd) as [H _].
  exact (H Hj).
Defined.

(** X4: whenever the loop ends normally, its cursor has advanced by exactly
    the total length of the text it yielded, whatever the lines were. *)
Theorem stream_loop_cursor (json_loads : string -> option json) (pos : nat)
    (chunks : list string) (p : nat) :
  snd (stream_loop json_loads pos chunks) = inl p ->
  p = pos + total_len (fst (stream_loop json_loads pos chunks)).
Proof.
  revert pos; induction chunks as [|c rest IH]; intros pos H; simpl in *.
  - injection H as <-; lia.
  - destruct (classify json_loads c) as [| |t m|e];
      try (simpl in H |- *; first [discriminate H | injection H as <-; lia]).
    + apply IH; exact H.
    + destruct (stream_loop json_loads (pos + String.length (str_drop pos t)) rest)
        as [ys fin] eqn:E.
      simpl in *; subst fin.
      specialize (IH _ ltac:(rewrite E; reflexivity)); rewrite E in IH; simpl in IH; lia.
Qed.

Lemma stream_loop_cursor_witness :
  snd (stream_loop echo_loads 0 ["data:ab"; "data:a"; "data:abcd"]) = inl 4 /\
  4 = 0 + total_len (fst (stream_loop echo_loads 0 ["data:ab"; "data:a"; "data:abcd"])).
Proof.
  split; [reflexivity|].
  apply stream_loop_cursor; reflexivity.
Defined.

(** X5: a data frame yields the part of its text past the cursor and moves
    the cursor to [max(pos, len(text))]: a text no longer than what was
    already yielded (a shrinking or repeated snapshot) yields the empty
    string and leaves the cursor where it was. *)
Theorem stream_loop_data_frame (json_loads : string -> option json) (pos : nat)
    (c : string) (rest : list string) (t : string) (m : json) :
  classify json_loads c = DataFrame t m ->
  stream_loop json_loads pos (c :: rest)
  = ((str_drop pos t, m) :: fst (stream_loop json_loads (Nat.max pos (String.length t)) rest),
     snd (stream_loop json_loads (Nat.max pos (String.length t)) rest)) /\
  (String.length t <= pos -> str_drop pos t = "").
Proof.
  intros Hc; split; [|apply str_drop_short].
  simpl; rewrite Hc.
  replace (pos + String.length (str_drop pos t)) with (Nat.max pos (String.length t))
    by (rewrite str_drop_length; lia).
  destruct (stream_loop json_loads (Nat.max pos (String.length t)) rest); reflexivity.
Qed.

Lemma stream_loop_data_frame_witness :
  classify echo_loads "data:ab" = DataFrame "ab" JNull /\
  fst (stream_loop echo_loads 3 ["data:ab"; "data:abcd"]) = [(""%string, JNull); ("d"%string, JNull)].
Proof.
  split; [reflexivity|].
  destruct (stream_loop_data_frame echo_loads 3 "data:ab" ["data:abcd"] "ab" JNull eq_refl) as [H1 H2].
  rewrite H1, (H2 ltac:(simpl; lia)); reflexivity.
Defined.

(** ** Requests of the endpoint methods *)

Lemma add_images_le1 (s : StreamExecutor) (data : dict) (log : list request) :
  (length (images_ s) <= 1)%nat -> _add_images s data log = (inl (with_image s data), log).
Proof.
  intros H; unfold with_image.
  destruct (images_ s) as [|x [|y l]] eqn:E; simpl in H; try lia.
  - apply add_images_none; exact E.
  - apply add_images_one; exact E.
Qed.

Lemma assert_success_outcome (server : request -> option response) (r : request)
    (log : list request) :
  bind (http_request server r) _assert_success log = (call_outcome (server r), (log ++ [r])%list).
Proof.
  unfold bind, http_request, call_outcome.
  destruct (server r) as [res|]; [|reflexivity].
  unfold _assert_success, res_json, bind, ret, raise.
  destruct (Z.eqb (status_code res) 200); [reflexivity|].
  destruct (res_body res); reflexivity.
Qed.

Lemma dict_get_set (k k' : string) (v : json) (d : dict) :
  dict_get k (dict_set k' v d) = if String.eqb k k' then Some v else dict_get k d.
Proof.
  destruct (String.eqb k k') eqn:E.
  - apply String.eqb_eq in E; subst k'; apply dict_get_set_same.
  - apply dict_get_set_other; apply String.eqb_neq in E; congruence.
Qed.

Lemma dict_get_app (k : string) (a b : dict) :
  dict_get k (a ++ b)%list = match dict_get k a with Some v => Some v | None => dict_get k b end.
Proof.
  induction a as [|[k' v'] a IH]; simpl; [reflexivity|].
  destruct (String.eqb k k'); [reflexivity | exact IH].
Qed.

Lemma dict_get_fold (k : string) (l : list (string * json)) (d : dict) :
  dict_get k (fold_left (fun d '(k, v) => dict_set k v d) l d)
  = match dict_get k (rev l) with Some v => Some v | None => dict_get k d end.
Proof.
  revert d; induction l as [|[k' v'] l IH]; intros d; simpl; [reflexivity|].
  rewrite IH, dict_get_app, dict_get_set; simpl.
  destruct (dict_get k (rev l)); [reflexivity|].
  destruct (String.eqb k k'); reflexivity.
Qed.

(** X6: [generate_stream] sends the payload [generate] sends with
    ["stream": True] added (the image, when there is one, added as well),
    as a streaming request to [/generate]; on a 200 answer it yields
    exactly what the frame loop yields over the answer's raw lines, and on
    any other status it raises [RuntimeError] with the decoded body before
    yielding anything. *)
Theorem generate_stream_request (server : request -> option response)
    (stream_server : request -> option stream_response)
    (to_srt_kwargs : SglSamplingParams -> list (string * json)) (skip spaces : bool)
    (json_loads : string -> option json) (utf8_decode : list byte -> option string)
    (self : RuntimeEndpoint) (s : StreamExecutor)
    (sp : SglSamplingParams) (log : list request) (data : dict) (res : stream_response) :
  build_data to_srt_kwargs skip spaces s sp = inl data -> (length (images_ s) <= 1)%nat ->
  stream_server (generate_request self (with_image s (dict_set "stream" (JBool true) data)) true)
  = Some res ->
  snd (generate server to_srt_kwargs skip spaces self s sp log)
  = (log ++ [generate_request self (with_image s data) false])%list /\
  (forall k, dict_get k (with_image s (dict_set "stream" (JBool true) data))
             = if String.eqb k "stream" then Some (JBool true) else dict_get k (with_image s data)) /\
  (sstatus_code res = 200%Z ->
     generate_stream stream_server to_srt_kwargs skip spaces json_loads utf8_decode self s sp log
     = (inl (fst (stream_loop_raw json_loads utf8_decode 0 (slines res)),
             match snd (stream_loop_raw json_loads utf8_decode 0 (slines res)) with
             | inl _ => None
             | inr e => Some e
             end),
        (log ++ [generate_request self (with_image s (dict_set "stream" (JBool true) data)) true])%list)) /\
  (forall j, sstatus_code res <> 200%Z -> sres_body res = Some j ->
     generate_stream stream_server to_srt_kwargs skip spaces json_loads utf8_decode self s sp log
     = (inr (RuntimeError j),
        (log ++ [generate_request self (with_image s (dict_set "stream" (JBool true) data)) true])%list)).
Proof.
  intros Hb Hi Hs.
  split; [apply (generate_log _ _ _ _ _ _ _ _ data); [exact Hb | apply add_images_le1; exact Hi]|].
  split; [|split].
  - intros k; unfold with_image; destruct (images_ s) as [|img l]; [apply dict_get_set|].
    rewrite !dict_get_set.
    destruct (String.eqb k "image_data") eqn:E1; destruct (String.eqb k "stream") eqn:E2;
      try reflexivity.
    apply String.eqb_eq in E1; apply String.eqb_eq in E2; rewrite E1 in E2; discriminate E2.
  - intros Hc; unfold generate_stream; cbv [bind lift].
    rewrite Hb, add_images_le1 by exact Hi.
    unfold http_request_stream; rewrite Hs.
    cbv [_assert_success bind ret]; simpl; rewrite Hc; simpl.
    destruct (stream_loop_raw json_loads utf8_decode 0 (slines res)) as [ys [p|e]]; reflexivity.
  - intros j Hc Hj; unfold generate_stream; cbv [bind lift].
    rewrite Hb, add_images_le1 by exact Hi.
    unfold http_request_stream; rewrite Hs.
    apply Z.eqb_neq in Hc.
    cbv [_assert_success bind ret raise res_json]; simpl; rewrite Hc, Hj; reflexivity.
Qed.

Lemma generate_stream_request_witness :
  fst (generate_stream three_lines (fun _ => []) true true echo_loads ascii_decode sample_endpoint
         (mkStreamExecutor "Q:" [("a.png", "AAA")]) sample_params [])
  = inl ([("a"%string, JNull); ("b"%string, JNull)], None).
Proof.
  destruct (generate_stream_request (fun _ => None) three_lines (fun _ => []) true true echo_loads
              ascii_decode sample_endpoint (mkStreamExecutor "Q:" [("a.png", "AAA")]) sample_params []
              (dict_of [("text", JStr "Q:");
                        ("sampling_params", JObj (dict_of [("skip_special_tokens", JBool true);
                                                           ("spaces_between_special_tokens", JBool true)]))])
              (mkStreamResponse 200 None (map list_byte_of_string [""; "data:a"; "data:ab"]))
              eq_refl ltac:(simpl; lia) eq_refl) as (_ & _ & H & _).
  rewrite (H eq_refl); reflexivity.
Defined.

(** X7: [commit_lazy_operations] and [fill_image] on a state with at most
    one image issue exactly one request: a POST to [/generate] with the
    state's text, [max_new_tokens = 0] and the image, the same payload
    [select] primes the cache with; the outcome is the server's answer
    checked by [_assert_success]. Without images this is the request
    [cache_prefix] issues for the state's text. *)
Theorem priming_calls_request (server : request -> option response) (self : RuntimeEndpoint)
    (s : StreamExecutor) (log : list request) :
  (length (images_ s) <= 1)%nat ->
  let r := generate_request self (with_image s (select_prime_data s)) false in
  commit_lazy_operations server self s log = (call_outcome (server r), (log ++ [r])%list) /\
  fill_image server self s log = (call_outcome (server r), (log ++ [r])%list) /\
  (images_ s = [] -> cache_prefix server self (text_ s) log = commit_lazy_operations server self s log).
Proof.
  intros Hi r.
  assert (Hc : commit_lazy_operations server self s log = (call_outcome (server r), (log ++ [r])%list)).
  { unfold commit_lazy_operations; cbv [bind].
    rewrite add_images_le1 by exact Hi.
    apply assert_success_outcome. }
  split; [exact Hc|]; split.
  - unfold fill_image; cbv [bind].
    rewrite add_images_le1 by exact Hi.
    apply assert_success_outcome.
  - intros He; rewrite Hc; unfold cache_prefix.
    rewrite assert_success_outcome.
    unfold r, with_image; rewrite He; reflexivity.
Qed.

Lemma priming_calls_request_witness :
  (length (images_ (mkStreamExecutor "Q:" [("a.png", "AAA")])) <= 1)%nat /\
  fill_image (fun _ => Some (mkResponse 500 (Some (JStr "busy")))) sample_endpoint
    (mkStreamExecutor "Q:" [("a.png", "AAA")]) []
  = (inr (RuntimeError (JStr "busy")),
     [generate_request sample_endpoint
        (with_image (mkStreamExecutor "Q:" [("a.png", "AAA")])
           (select_prime_data (mkStreamExecutor "Q:" [("a.png", "AAA")]))) false]).
Proof.
  assert (Hi : (length (images_ (mkStreamExecutor "Q:" [("a.png", "AAA")])) <= 1)%nat) by (simpl; lia).
  split; [exact Hi|].
  destruct (priming_calls_request (fun _ => Some (mkResponse 500 (Some (JStr "busy")))) sample_endpoint
              (mkStreamExecutor "Q:" [("a.png", "AAA")]) [] Hi) as (_ & H & _).
  exact H.
Defined.

(** X8: with two or more images, [commit_lazy_operations], [fill_image],
    [generate] and [generate_stream] for a valid dtype raise the image
    assertion without issuing any request. *)
Theorem image_assertion_no_request (server : request -> option response)
    (stream_server : request -> option stream_response)
    (to_srt_kwargs : SglSamplingParams -> list (string * json)) (skip spaces : bool)
    (json_loads : string -> option json) (utf8_decode : list byte -> option string)
    (self : RuntimeEndpoint) (s : StreamExecutor) (sp : SglSamplingParams) (log : list request) :
  (2 <= length (images_ s))%nat ->
  commit_lazy_operations server self s log = (inr (AssertionError "Only support one image."), log) /\
  fill_image server self s log = (inr (AssertionError "Only support one image."), log) /\
  ((dtype sp = DtypeNone \/ dtype_is_int (dtype sp) = true) ->
     generate server to_srt_kwargs skip spaces self s sp log
     = (inr (AssertionError "Only support one image."), log) /\
     generate_stream stream_server to_srt_kwargs skip spaces json_loads utf8_decode self s sp log
     = (inr (AssertionError "Only support one image."), log)).
Proof.
  intros Hi.
  split; [unfold commit_lazy_operations; cbv [bind]; rewrite add_images_many by exact Hi; reflexivity|].
  split; [unfold fill_image; cbv [bind]; rewrite add_images_many by exact Hi; reflexivity|].
  intros Hv; destruct (build_data_valid to_srt_kwargs skip spaces s sp Hv) as [data Hb].
  split.
  - unfold generate; cbv [bind lift]; rewrite Hb, add_images_many by exact Hi; reflexivity.
  - unfold generate_stream; cbv [bind lift]; rewrite Hb, add_images_many by exact Hi; reflexivity.
Qed.

Lemma image_assertion_no_request_witness :
  (2 <= length (images_ (mkStreamExecutor "Q:" [("a.png", "AAA"); ("b.png", "BBB")])))%nat /\
  commit_lazy_operations (fun _ => None) sample_endpoint
    (mkStreamExecutor "Q:" [("a.png", "AAA"); ("b.png", "BBB")]) []
  = (inr (AssertionError "Only support one image."), []).
Proof.
  assert (Hi : (2 <= length (images_ (mkStreamExecutor "Q:" [("a.png", "AAA"); ("b.png", "BBB")])))%nat)
    by (simpl; lia).
  split; [exact Hi|].
  destruct (image_assertion_no_request (fun _ => None) three_lines (fun _ => []) true true echo_loads
              ascii_decode sample_endpoint (mkStreamExecutor "Q:" [("a.png", "AAA"); ("b.png", "BBB")])
              sample_params [] Hi) as (H & _).
  exact H.
Defined.

(** X9: for a valid payload and at most one image, [generate] issues one
    request and its outcome is decided by the answer: [ConnectionError]
    when unreachable; on a non-200 status [RuntimeError] with the decoded
    body; on 200 the body's ["text"] and ["meta_info"], a [KeyError] for
    the first one missing; [JSONDecodeError] for a body that is not JSON. *)
Theorem generate_outcome (server : request -> option response)
    (to_srt_kwargs : SglSamplingParams -> list (string * json)) (skip spaces : bool)
    (self : RuntimeEndpoint) (s : StreamExecutor) (sp : SglSamplingParams)
    (log : list request) (data : dict) :
  build_data to_srt_kwargs skip spaces s sp = inl data -> (length (images_ s) <= 1)%nat ->
  let r := generate_request self (with_image s data) false in
  generate server to_srt_kwargs skip spaces self s sp log
  = (match server r with
     | None => inr ConnectionError
     | Some res =>
         match Z.eqb (status_code res) 200, res_body res with
         | true, Some obj =>
             rbind (json_index obj "text") (fun c =>
               rbind (json_index obj "meta_info") (fun m => inl (c, m)))
         | false, Some j => inr (RuntimeError j)
         | _, None => inr JSONDecodeError
         end
     end, (log ++ [r])%list).
Proof.
  intros Hb Hi r.
  unfold generate; cbv [bind lift]; rewrite Hb, add_images_le1 by exact Hi.
  fold r; cbv [http_request].
  destruct (server r) as [res|]; [|reflexivity].
  cbv [bind _assert_success res_json ret raise lift].
  destruct (Z.eqb (status_code res) 200); destruct (res_body res) as [j|]; try reflexivity.
  destruct (json_index j "text"); [|reflexivity].
  destruct (json_index j "meta_info"); reflexivity.
Qed.

Lemma generate_outcome_witness :
  generate (fun _ => Some (mkResponse 200 (Some (JObj [("text", JStr "hi")])))) (fun _ => []) true true
    sample_endpoint (mkStreamExecutor "Q:" []) sample_params []
  = (inr (KeyError "meta_info"),
     [generate_request sample_endpoint
        (dict_of [("text", JStr "Q:");
                  ("sampling_params", JObj (dict_of [("skip_special_tokens", JBool true);
                                                     ("spaces_between_special_tokens", JBool true)]))])
        false]).
Proof.
  rewrite (generate_outcome (fun _ => Some (mkResponse 200 (Some (JObj [("text", JStr "hi")]))))
             (fun _ => []) true true sample_endpoint (mkStreamExecutor "Q:" []) sample_params []
             (dict_of [("text", JStr "Q:");
                       ("sampling_params", JObj (dict_of [("skip_special_tokens", JBool true);
                                                          ("spaces_between_special_tokens", JBool true)]))])
             eq_refl ltac:(simpl; lia)).
  reflexivity.
Defined.

(** X10: the payload of [generate] and [generate_stream] carries the
    state's text under ["text"], and each of [return_logprob],
    [logprob_start_len], [top_logprobs_num], [return_text_in_logprobs]
    exactly when it is not [None] on the sampling parameters, with its
    value. *)
Theorem build_data_fields (to_srt_kwargs : SglSamplingParams -> list (string * json))
    (skip spaces : bool) (s : StreamExecutor) (sp : SglSamplingParams) (data : dict) :
  build_data to_srt_kwargs skip spaces s sp = inl data ->
  dict_get "text" data = Some (JStr (text_ s)) /\
  dict_get "return_logprob" data = return_logprob sp /\
  dict_get "logprob_start_len" data = logprob_start_len sp /\
  dict_get "top_logprobs_num" data = top_logprobs_num sp /\
  dict_get "return_text_in_logprobs" data = return_text_in_logprobs sp.
Proof.
  unfold build_data; intros H.
  destruct (dtype sp) as [| |ds|ds]; simpl in H;
    try (destruct (String.eqb ds "int"); simpl in H);
    try discriminate H;
    injection H as <-;
    destruct (return_logprob sp), (logprob_start_len sp), (top_logprobs_num sp),
      (return_text_in_logprobs sp); repeat split.
Qed.

Lemma build_data_fields_witness :
  exists data,
    build_data (fun _ => []) true true (mkStreamExecutor "Q:" [])
      (mkSamplingParams DtypeNone (Some (JBool true)) None (Some (JInt 5)) None) = inl data /\
    dict_get "logprob_start_len" data = None /\ dict_get "top_logprobs_num" data = Some (JInt 5).
Proof.
  eexists; split; [reflexivity|].
  destruct (build_data_fields (fun _ => []) true true (mkStreamExecutor "Q:" [])
              (mkSamplingParams DtypeNone (Some (JBool true)) None (Some (JInt 5)) None) _ eq_refl)
    as (_ & _ & H1 & H2 & _).
  split; [exact H1 | exact H2].
Defined.

Lemma build_data_shape (to_srt_kwargs : SglSamplingParams -> list (string * json))
    (skip spaces : bool) (s : StreamExecutor) (sp : SglSamplingParams) (data : dict) :
  build_data to_srt_kwargs skip spaces s sp = inl data ->
  data = fold_left (fun d '(item, value) =>
                      match value with Some v => dict_set item v d | None => d end)
           [("return_logprob", return_logprob sp);
            ("logprob_start_len", logprob_start_len sp);
            ("top_logprobs_num", top_logprobs_num sp);
            ("return_text_in_logprobs", return_text_in_logprobs sp)]
           (dict_of [("text", JStr (text_ s));
                     ("sampling_params",
                       JObj (dict_of ([("skip_special_tokens", JBool skip);
                                       ("spaces_between_special_tokens", JBool spaces)] ++
                                      (if dtype_is_int (dtype sp) then [("dtype", JStr "int")] else []) ++
                                      to_srt_kwargs sp)%list))]).
Proof.
  unfold build_data; intros H.
  destruct (dtype sp) as [| |ds|ds]; simpl in H |- *;
    try (destruct (String.eqb ds "int"); simpl in H |- *);
    try discriminate H;
    injection H as <-; reflexivity.
Qed.

(** X11: the ["sampling_params"] of the payload start from the two global
    flags (and [dtype = "int"] for an integer dtype) and are then updated
    with [to_srt_kwargs()]: a key it returns wins, with its last value. *)
Theorem build_data_sampling_params (to_srt_kwargs : SglSamplingParams -> list (string * json))
    (skip spaces : bool) (s : StreamExecutor) (sp : SglSamplingParams) (data : dict) :
  build_data to_srt_kwargs skip spaces s sp = inl data ->
  exists spd, dict_get "sampling_params" data = Some (JObj spd) /\
    forall k, dict_get k spd
      = match dict_get k (rev (to_srt_kwargs sp)) with
        | Some v => Some v
        | None =>
            dict_get k ([("skip_special_tokens", JBool skip);
                         ("spaces_between_special_tokens", JBool spaces)] ++
                        (if dtype_is_int (dtype sp) then [("dtype", JStr "int")] else []))%list
        end.
Proof.
  intros H; apply build_data_shape in H; subst data.
  eexists; split.
  - destruct (return_logprob sp), (logprob_start_len sp), (top_logprobs_num sp),
      (return_text_in_logprobs sp); reflexivity.
  - intros k; unfold dict_of; rewrite dict_get_fold; simpl dict_get at 2.
    rewrite !rev_app_distr, !dict_get_app.
    destruct (dict_get k (rev (to_srt_kwargs sp))); [reflexivity|].
    destruct (dtype_is_int (dtype sp)); simpl;
      destruct (String.eqb k "skip_special_tokens") eqn:E1;
      destruct (String.eqb k "spaces_between_special_tokens") eqn:E2;
      try destruct (String.eqb k "dtype") eqn:E3; try reflexivity;
      match goal with
      | H1 : String.eqb k ?a = true, H2 : String.eqb k ?b = true |- _ =>
          apply String.eqb_eq in H1; apply String.eqb_eq in H2; rewrite H1 in H2; discriminate H2
      end.
Qed.

Lemma build_data_sampling_params_witness :
  exists spd,
    dict_get "sampling_params"
      (match build_data (fun _ => [("skip_special_tokens", JBool false)]) true true
               (mkStreamExecutor "Q:" []) (mkSamplingParams (DtypeStr "int") None None None None) with
       | inl d => d | inr _ => [] end) = Some (JObj spd) /\
    dict_get "skip_special_tokens" spd = Some (JBool false) /\
    dict_get "dtype" spd = Some (JStr "int").
Proof.
  destruct (build_data_sampling_params (fun _ => [("skip_special_tokens", JBool false)]) true true
              (mkStreamExecutor "Q:" []) (mkSamplingParams (DtypeStr "int") None None None None)
              _ eq_refl) as (spd & H1 & H2).
  exists spd; split; [exact H1|].
  split; [rewrite H2; reflexivity | rewrite H2; reflexivity].
Defined.

(** ** Session creation *)

Lemma init_result (server : request -> option response) (get_chat_template_by_model_path : json -> string)
    (url : string) (key vfy : option string) (log : list request) :
  let r := mkRequest (url ++ "/get_model_info") None false key vfy in
  init server get_chat_template_by_model_path url key vfy log
  = (match server r with
     | None => inr ConnectionError
     | Some res =>
         match Z.eqb (status_code res) 200, res_body res with
         | true, Some info =>
             rbind (json_index info "model_path") (fun path =>
               inl (mkRuntimeEndpoint true url key vfy info (get_chat_template_by_model_path path)))
         | false, Some j => inr (RuntimeError j)
         | _, None => inr JSONDecodeError
         end
     end, (log ++ [r])%list).
Proof.
  intros r; unfold init; cbv [bind http_request]; fold r.
  destruct (server r) as [res|]; [|reflexivity].
  cbv [bind _assert_success res_json ret raise lift].
  destruct (Z.eqb (status_code res) 200); destruct (res_body res) as [j|]; try reflexivity.
  destruct (json_index j "model_path"); reflexivity.
Qed.

(** X12: [RuntimeEndpoint.__init__] issues one request, to
    [/get_model_info] with the given credential and TLS setting, and its
    outcome is decided by the answer: [ConnectionError] when unreachable,
    [RuntimeError] with the decoded body on a non-200 status,
    [JSONDecodeError] for a body that is not JSON, [KeyError] when the
    model information has no ["model_path"], and otherwise a session whose
    chat template is looked up from that path. *)
Theorem init_outcome (server : request -> option response) (get_chat_template_by_model_path : json -> string)
    (url : string) (key vfy : option string) (log : list request) :
  let r := mkRequest (url ++ "/get_model_info") None false key vfy in
  init server get_chat_template_by_model_path url key vfy log
  = (match server r with
     | None => inr ConnectionError
     | Some res =>
         match Z.eqb (status_code res) 200, res_body res with
         | true, Some info =>
             rbind (json_index info "model_path") (fun path =>
               inl (mkRuntimeEndpoint true url key vfy info (get_chat_template_by_model_path path)))
         | false, Some j => inr (RuntimeError j)
         | _, None => inr JSONDecodeError
         end
     end, (log ++ [r])%list).
Proof. exact (init_result server get_chat_template_by_model_path url key vfy log). Qed.

(** X13: a session [__init__] returns keeps the address, credential and
    TLS setting it was given, supports [concatenate_and_append], and its
    [get_model_name] and [get_chat_template] read back the
    ["model_path"] the server reported and the template looked up for it. *)
Theorem init_round_trip (server : request -> option response) (get_chat_template_by_model_path : json -> string)
    (url : string) (key vfy : option string) (log log' : list request) (self : RuntimeEndpoint) :
  init server get_chat_template_by_model_path url key vfy log = (inl self, log') ->
  log' = (log ++ [mkRequest (url ++ "/get_model_info") None false key vfy])%list /\
  base_url self = url /\ api_key self = key /\ verify self = vfy /\
  support_concate_and_append self = true /\
  exists res info path,
    server (mkRequest (url ++ "/get_model_info") None false key vfy) = Some res /\
    status_code res = 200%Z /\ res_body res = Some info /\
    json_index info "model_path" = inl path /\
    get_model_name self = inl path /\ get_chat_template self = get_chat_template_by_model_path path.
Proof.
  rewrite init_result; intros H.
  destruct (server (mkRequest (url ++ "/get_model_info") None false key vfy)) as [res|] eqn:Es;
    [|discriminate H].
  destruct (Z.eqb (status_code res) 200) eqn:Ec; destruct (res_body res) as [info|] eqn:Eb;
    try discriminate H.
  destruct (json_index info "model_path") as [path|] eqn:Ep; simpl in H; [|discriminate H].
  injection H as <- <-.
  repeat split.
  exists res, info, path; repeat split; try assumption.
  apply Z.eqb_eq; exact Ec.
Qed.

Lemma init_round_trip_witness :
  exists self log',
    init info_server (fun _ => "llama-3") "http://h" (Some "sk") None [] = (inl self, log') /\
    get_model_name self = inl (JStr "meta-llama/Llama-3").
Proof.
  eexists; eexists; split; [reflexivity|].
  destruct (init_round_trip info_server (fun _ => "llama-3") "http://h" (Some "sk") None [] _
              (mkRuntimeEndpoint true "http://h" (Some "sk") None
                 (JObj [("model_path", JStr "meta-llama/Llama-3")]) "llama-3") eq_refl)
    as (_ & _ & _ & _ & _ & res & info & path & Hs & _ & Hb & Hp & Hn & _).
  unfold info_server in Hs; injection Hs as <-; simpl in Hb; injection Hb as <-.
  simpl in Hp; injection Hp as <-; exact Hn.
Defined.

(** ** The requests [select] issues *)

Lemma appends_weaken {A : Type} (P : request -> Prop) (n n' : nat) (m : M A) :
  (n <= n')%nat -> appends P n m -> appends P n' m.
Proof.
  intros Hn H log; destruct (H log) as (rest & H1 & H2 & H3).
  exists rest; repeat split; auto; lia.
Qed.

Lemma appends_ret {A : Type} (P : request -> Prop) (a : A) : appends P 0 (ret a).
Proof. intros log; exists []; rewrite app_nil_r; repeat constructor. Qed.

Lemma appends_raise {A : Type} (P : request -> Prop) (e : py_error) : appends P 0 (@raise A e).
Proof. intros log; exists []; rewrite app_nil_r; repeat constructor. Qed.

Lemma appends_lift {A : Type} (P : request -> Prop) (r : A + py_error) : appends P 0 (lift r).
Proof. intros log; exists []; rewrite app_nil_r; repeat constructor. Qed.

Lemma appends_bind {A B : Type} (P : request -> Prop) (n k : nat) (m : M A) (f : A -> M B) :
  appends P n m ->
  (forall a log log', m log = (inl a, log') -> appends P k (f a)) ->
  appends P (n + k) (bind m f).
Proof.
  intros Hm Hf log; unfold bind.
  destruct (Hm log) as (r1 & E1 & L1 & F1).
  destruct (m log) as [[a|e] log1] eqn:Em; simpl in E1; subst log1.
  - destruct (Hf a log _ Em (log ++ r1)%list) as (r2 & E2 & L2 & F2).
    exists (r1 ++ r2)%list; rewrite E2, app_assoc; split; [reflexivity|].
    rewrite length_app; split; [lia | apply Forall_app; split; assumption].
  - exists r1; simpl; repeat split; auto; lia.
Qed.

Lemma appends_http (server : request -> option response) (P : request -> Prop) (r : request) :
  P r -> appends P 1 (http_request server r).
Proof.
  intros Hr log; exists [r]; unfold http_request.
  split; [destruct (server r); reflexivity|].
  split; [simpl; lia | repeat constructor; exact Hr].
Qed.

Lemma appends_res_json (P : request -> Prop) (res : response) : appends P 0 (res_json res).
Proof. unfold res_json; destruct (res_body res); [apply appends_ret | apply appends_raise]. Qed.

Lemma appends_assert_success (P : request -> Prop) (res : response) :
  appends P 0 (_assert_success res).
Proof.
  unfold _assert_success; destruct (Z.eqb (status_code res) 200); [apply appends_ret|].
  apply (appends_bind P 0 0); [apply appends_res_json | intros; apply appends_raise].
Qed.

Lemma appends_add_images (P : request -> Prop) (s : StreamExecutor) (d : dict) :
  appends P 0 (_add_images s d).
Proof.
  unfold _add_images; destruct (images_ s) as [|x l]; [apply appends_ret|].
  destruct (Nat.eqb (length (x :: l)) 1); [apply appends_ret | apply appends_raise].
Qed.

Lemma select_request_ok_gen (self : RuntimeEndpoint) (s : StreamExecutor) (d : dict) :
  (length (images_ s) <= 1)%nat -> dict_get "image_data" d = None ->
  select_request_ok self s (generate_request self (with_image s d) false).
Proof.
  intros Hi Hd; unfold select_request_ok, generate_request, image_field, with_image; simpl.
  repeat split.
  destruct (images_ s) as [|img [|img2 l]]; simpl in Hi; try lia.
  - exact Hd.
  - apply dict_get_set_same.
Qed.

Ltac appends_steps :=
  repeat match goal with
  | |- appends _ _ (bind _ _) => eapply appends_bind; [|intros ? ? ? ?]
  | |- appends _ _ (ret _) => apply appends_ret
  | |- appends _ _ (raise _) => apply appends_raise
  | |- appends _ _ (lift _) => apply appends_lift
  | |- appends _ _ (res_json _) => apply appends_res_json
  | |- appends _ _ (_assert_success _) => apply appends_assert_success
  | |- appends _ _ (_add_images _ _) => apply appends_add_images
  | |- appends _ _ (if ?b then _ else _) => destruct b
  end.

(** X14: [select] only ever issues requests to [/generate] on the
    session's address, not streamed, with the session's credential and
    TLS setting, carrying the state's image when it has exactly one and no
    image otherwise; it issues at most two of them, and none when the
    state has two or more images. *)
Theorem select_requests (server : request -> option response) (self : RuntimeEndpoint)
    (s : StreamExecutor) (choices : list string) (t : Q) :
  appends (select_request_ok self s) 2 (select server self s choices t) /\
  ((2 <= length (images_ s))%nat -> forall log, snd (select server self s choices t log) = log).
Proof.
  destruct (Nat.le_gt_cases 2 (length (images_ s))) as [Hi|Hi].
  - assert (E : forall log, snd (select server self s choices t log) = log).
    { intros log; unfold select; cbv [bind]; destruct (Qle_bool t select_threshold); [|reflexivity].
      cbv [ret]; rewrite add_images_many by exact Hi; reflexivity. }
    split; [|intros _; exact E].
    intros log; exists []; rewrite app_nil_r; repeat constructor; apply E.
  - split; [|intros; lia].
    eapply appends_weaken; cycle 1.
    + unfold select; appends_steps.
      all: try match goal with
           | H : _add_images ?s0 ?d ?lg = (inl ?a, _) |- appends _ _ (http_request _ _) =>
               rewrite add_images_le1 in H by lia; injection H as <- _;
               apply appends_http; apply select_request_ok_gen; [lia | reflexivity]
           end.
    + simpl; lia.
Qed.

Lemma select_requests_witness :
  (2 <= length (images_ (mkStreamExecutor "Q:" [("a.png", "AAA"); ("b.png", "BBB")])))%nat /\
  snd (select score_server sample_endpoint (mkStreamExecutor "Q:" [("a.png", "AAA"); ("b.png", "BBB")])
         ["a"; "b"] 0 []) = [].
Proof.
  assert (Hi : (2 <= length (images_ (mkStreamExecutor "Q:" [("a.png", "AAA"); ("b.png", "BBB")])))%nat)
    by (simpl; lia).
  split; [exact Hi|].
  destruct (select_requests score_server sample_endpoint
              (mkStreamExecutor "Q:" [("a.png", "AAA"); ("b.png", "BBB")]) ["a"; "b"] 0) as [_ H].
  apply H; exact Hi.
Defined.

(** ** More on the runner *)

Module RunnerFacts.
Import Runner.

Lemma started_app (a b : list event) : started (a ++ b)%list = (started a ++ started b)%list.
Proof. unfold started; apply flat_map_app. Qed.

Lemma run_loop_started (behaviour : string -> worker) (files : list string) (success : bool) :
  exists k, started (fst (run_loop behaviour files success)) = firstn k files.
Proof.
  induction files as [|f rest IH].
  - exists 0; reflexivity.
  - simpl; unfold run_with_timeout.
    destruct (behaviour f) as [code|].
    + destruct (negb (Z.eqb code 0)).
      * exists 1; reflexivity.
      * destruct IH as [k Hk].
        destruct (run_loop behaviour rest success) as [ev r]; simpl in *.
        exists (S k); simpl; rewrite <- Hk; reflexivity.
    + exists 1; reflexivity.
Qed.

(** X15: [run_unittest_files] starts the files in the order given, each
    at most once, and never one after a file it did not start: the files
    it starts are a prefix of its input. *)
Theorem run_unittest_files_started_prefix (behaviour : string -> worker) (files : list string) :
  exists k, started (fst (run_unittest_files behaviour files)) = firstn k files.
Proof.
  destruct (run_loop_started behaviour files true) as [k Hk].
  exists k; unfold run_unittest_files.
  destruct (run_loop behaviour files true) as [ev [success|v]]; simpl in *; [|exact Hk].
  destruct success; simpl; rewrite started_app, app_nil_r; exact Hk.
Qed.

Lemma first_not_ok (behaviour : string -> worker) (files : list string) :
  Forall (fun g => behaviour g = Finishes 0) files \/
  exists pre f post, files = (pre ++ f :: post)%list /\
    Forall (fun g => behaviour g = Finishes 0) pre /\ behaviour f <> Finishes 0.
Proof.
  induction files as [|g rest IH]; [left; constructor|].
  destruct (behaviour g) as [[|p|p]|] eqn:Eg.
  - destruct IH as [H|(pre & f & post & -> & Hp & Hf)].
    + left; constructor; assumption.
    + right; exists (g :: pre), f, post; repeat split; auto.
  - right; exists [], g, rest; repeat split; auto; rewrite Eg; discriminate.
  - right; exists [], g, rest; repeat split; auto; rewrite Eg; discriminate.
  - right; exists [], g, rest; repeat split; auto; rewrite Eg; discriminate.
Qed.

Lemma run_all_ok (behaviour : string -> worker) (files : list string) :
  Forall (fun g => behaviour g = Finishes 0) files -> snd (run_unittest_files behaviour files) = RetInt 0.
Proof.
  intros Hf; unfold run_unittest_files.
  pose proof (RunnerProofs.run_loop_ok_prefix behaviour files [] Hf) as E.
  rewrite app_nil_r in E; rewrite E; reflexivity.
Qed.

Lemma run_first_bad (behaviour : string -> worker) (pre post : list string) (f : string) :
  Forall (fun g => behaviour g = Finishes 0) pre ->
  snd (run_unittest_files behaviour (pre ++ f :: post))
  = match behaviour f with
    | Hangs => RetBool false
    | Finishes code => if Z.eqb code 0 then snd (run_unittest_files behaviour (pre ++ f :: post)) else RetInt (-1)
    end.
Proof.
  intros Hp; destruct (behaviour f) as [code|] eqn:Ef.
  - destruct (Z.eqb code 0) eqn:Ec; [reflexivity|].
    unfold run_unittest_files; rewrite RunnerProofs.run_loop_ok_prefix by exact Hp.
    simpl; unfold run_with_timeout; rewrite Ef, Ec; reflexivity.
  - unfold run_unittest_files; rewrite RunnerProofs.run_loop_ok_prefix by exact Hp.
    simpl; unfold run_with_timeout; rewrite Ef; reflexivity.
Qed.

Lemma first_not_ok_unique (behaviour : string -> worker) (pre post pre' post' : list string)
    (f f' : string) :
  Forall (fun g => behaviour g = Finishes 0) pre -> Forall (fun g => behaviour g = Finishes 0) pre' ->
  behaviour f <> Finishes 0 -> behaviour f' <> Finishes 0 ->
  (pre ++ f :: post)%list = (pre' ++ f' :: post')%list -> pre = pre' /\ f = f'.
Proof.
  intros Hp Hp' Hf Hf'; revert pre' Hp'.
  induction Hp as [|g pre Hg Hp IH]; intros [|g' pre'] Hp' Heq; simpl in Heq.
  - injection Heq as -> _; auto.
  - injection Heq as -> _; inversion Hp'; congruence.
  - injection Heq as -> _; congruence.
  - injection Heq as -> Heq; inversion Hp'; subst.
    destruct (IH pre' ltac:(assumption) Heq) as [-> ->]; auto.
Qed.

(** X16: the result of [run_unittest_files] tells what happened: [0]
    exactly when every file's worker exits with 0, [-1] exactly when the
    first file that does not succeed exits with a non-zero code, and
    [False] exactly when the first file that does not succeed times out. *)
Theorem run_unittest_files_outcome (behaviour : string -> worker) (files : list string) :
  (snd (run_unittest_files behaviour files) = RetInt 0 <->
     Forall (fun g => behaviour g = Finishes 0) files) /\
  (snd (run_unittest_files behaviour files) = RetInt (-1) <->
     exists pre f post code, files = (pre ++ f :: post)%list /\
       Forall (fun g => behaviour g = Finishes 0) pre /\
       behaviour f = Finishes code /\ code <> 0%Z) /\
  (snd (run_unittest_files behaviour files) = RetBool false <->
     exists pre f post, files = (pre ++ f :: post)%list /\
       Forall (fun g => behaviour g = Finishes 0) pre /\ behaviour f = Hangs).
Proof.
  destruct (first_not_ok behaviour files) as [Hok|(pre & f & post & -> & Hp & Hf)].
  - rewrite (run_all_ok behaviour files Hok).
    split; [split; auto|].
    split; split; try discriminate.
    + intros (pre & f & post & code & -> & _ & Hf & Hc).
      apply Forall_app in Hok as [_ Hok]; inversion Hok; congruence.
    + intros (pre & f & post & -> & _ & Hf).
      apply Forall_app in Hok as [_ Hok]; inversion Hok; congruence.
  - rewrite (run_first_bad behaviour pre post f Hp).
    destruct (behaviour f) as [code|] eqn:Ef.
    + assert (Ec : Z.eqb code 0 = false) by (apply Z.eqb_neq; congruence).
      rewrite Ec.
      split; [split; [discriminate|]|split; split].
      * intros Hall; apply Forall_app in Hall as [_ Hall]; inversion Hall; congruence.
      * intros _; exists pre, f, post, code; repeat split; auto; apply Z.eqb_neq; exact Ec.
      * reflexivity.
      * discriminate.
      * intros (pre' & f' & post' & Heq & Hp' & Hf').
        exfalso.
        destruct (first_not_ok_unique behaviour pre post pre' post' f f' Hp Hp'
                    ltac:(rewrite Ef; exact Hf) ltac:(rewrite Hf'; discriminate) Heq) as [-> ->].
        congruence.
    + split; [split; [discriminate|]|split; split].
      * intros Hall; apply Forall_app in Hall as [_ Hall]; inversion Hall; congruence.
      * discriminate.
      * intros (pre' & f' & post' & code & Heq & Hp' & Hf' & Hc).
        exfalso.
        destruct (first_not_ok_unique behaviour pre post pre' post' f f' Hp Hp'
                    ltac:(rewrite Ef; exact Hf) ltac:(rewrite Hf'; congruence) Heq) as [-> ->].
        congruence.
      * intros _; exists pre, f, post; repeat split; auto.
      * reflexivity.
Qed.

End RunnerFacts.

(** A runner whose file B hangs. *)
Lemma run_unittest_files_outcome_witness :
  snd (Runner.run_unittest_files (fun g => if String.eqb g "B" then Runner.Hangs else Runner.Finishes 0)
         ["A"; "B"; "C"]) = Runner.RetBool false.
Proof.
  destruct (RunnerFacts.run_unittest_files_outcome
              (fun g => if String.eqb g "B" then Runner.Hangs else Runner.Finishes 0)
              ["A"; "B"; "C"]) as (_ & _ & _ & H).
  apply H; exists ["A"], "B", ["C"]; repeat split; repeat constructor.
Defined.

(** ** The benchmark helpers *)

Module TestUtilsFacts.
Import TestUtils.

Lemma argmax_from_zeros (i n : nat) : argmax_from i 0 0 (repeat 0%Q n) = 0.
Proof.
  revert i; induction n as [|n IH]; intros i; simpl; [reflexivity|].
  apply IH.
Qed.

Lemma lightllm_scores_ok (post : request -> option response) (u context : string)
    (choices : list string) (log : list request) :
  (forall c, In c choices -> exists b,
     post (mkRequest u (Some (lightllm_data context c)) false None None) = Some (mkResponse 200 b)) ->
  lightllm_scores post u context choices log
  = (inl (repeat (JInt 0) (length choices)),
     (log ++ map (fun c => mkRequest u (Some (lightllm_data context c)) false None None) choices)%list).
Proof.
  revert log; induction choices as [|c rest IH]; intros log H; simpl.
  - rewrite app_nil_r; reflexivity.
  - destruct (H c (or_introl eq_refl)) as [b Hb].
    cbv [bind requests_post]; rewrite Hb; cbv [assert_200 ret]; simpl.
    rewrite IH by (intros c' Hc'; apply H; right; exact Hc').
    rewrite <- app_assoc; reflexivity.
Qed.

Lemma lightllm_scores_fail (post : request -> option response) (u context : string)
    (pre rest : list string) (c : string) (res : response) (log : list request) :
  (forall c', In c' pre -> exists b,
     post (mkRequest u (Some (lightllm_data context c')) false None None) = Some (mkResponse 200 b)) ->
  post (mkRequest u (Some (lightllm_data context c)) false None None) = Some res ->
  status_code res <> 200%Z ->
  lightllm_scores post u context (pre ++ c :: rest) log
  = (inr (AssertionError ""),
     (log ++ map (fun c => mkRequest u (Some (lightllm_data context c)) false None None) pre
          ++ [mkRequest u (Some (lightllm_data context c)) false None None])%list).
Proof.
  intros Hpre Hp Hs; revert log; induction pre as [|c' pre IH]; intros log; simpl.
  - cbv [bind requests_post]; rewrite Hp.
    apply Z.eqb_neq in Hs; cbv [assert_200 raise]; rewrite Hs; reflexivity.
  - destruct (Hpre c' (or_introl eq_refl)) as [b Hb].
    cbv [bind requests_post]; rewrite Hb; cbv [assert_200 ret]; simpl.
    rewrite IH by (intros c'' Hc''; apply Hpre; right; exact Hc'').
    rewrite <- !app_assoc; reflexivity.
Qed.

(** X17: [call_select_lightllm] asserts the URL, then posts one request
    per choice, in order, with [context + choice] and one new token; when
    every answer has status 200 it returns 0 whatever the choices are
    (all its scores are 0), with no choice it raises [ValueError] from
    [np.argmax] without posting, and the first non-200 answer, for any
    choice, raises the status assertion right after that request. *)
Theorem call_select_lightllm_outcome (post : request -> option response) (context : string)
    (choices : list string) (log : list request) :
  call_select_lightllm post context choices None log = (inr (AssertionError ""), log) /\
  (forall u, call_select_lightllm post context [] (Some u) log = (inr ValueError, log)) /\
  (forall u, choices <> [] ->
     (forall c, In c choices -> exists b,
        post (mkRequest u (Some (lightllm_data context c)) false None None) = Some (mkResponse 200 b)) ->
     call_select_lightllm post context choices (Some u) log
     = (inl 0, (log ++ map (fun c => mkRequest u (Some (lightllm_data context c)) false None None)
                          choices)%list)) /\
  (forall u pre c rest res,
     (forall c', In c' pre -> exists b,
        post (mkRequest u (Some (lightllm_data context c')) false None None) = Some (mkResponse 200 b)) ->
     post (mkRequest u (Some (lightllm_data context c)) false None None) = Some res ->
     status_code res <> 200%Z ->
     call_select_lightllm post context (pre ++ c :: rest) (Some u) log
     = (inr (AssertionError ""),
        (log ++ map (fun c => mkRequest u (Some (lightllm_data context c)) false None None) pre
             ++ [mkRequest u (Some (lightllm_data context c)) false None None])%list)).
Proof.
  split; [reflexivity|].
  split; [intros u; reflexivity|].
  split.
  - intros u Hne H.
    unfold call_select_lightllm; cbv [bind assert_url ret].
    rewrite lightllm_scores_ok by exact H.
    destruct choices as [|c rest]; [congruence|].
    cbv [lift np_argmax rbind]; simpl.
    assert (E : forall m, mapR to_number (repeat (JInt 0) m) = inl (repeat 0%Q m)).
    { induction m as [|m IH]; simpl; [reflexivity|].
      rewrite IH; reflexivity. }
    rewrite E; simpl; rewrite argmax_from_zeros; reflexivity.
  - intros u pre c rest res Hpre Hp Hs.
    unfold call_select_lightllm; cbv [bind assert_url ret].
    rewrite (lightllm_scores_fail post u context pre rest c res log Hpre Hp Hs); reflexivity.
Qed.

Lemma call_select_lightllm_outcome_witness :
  call_select_lightllm (fun _ => Some (mkResponse 200 None)) "Q:" ["a"; "b"] (Some "http://h") []
  = (inl 0, [mkRequest "http://h" (Some (lightllm_data "Q:" "a")) false None None;
             mkRequest "http://h" (Some (lightllm_data "Q:" "b")) false None None]).
Proof.
  destruct (call_select_lightllm_outcome (fun _ => Some (mkResponse 200 None)) "Q:" ["a"; "b"] [])
    as (_ & _ & H & _).
  apply H; [discriminate|].
  intros c _; exists None; reflexivity.
Defined.

(** The score [call_select_vllm] reads from an answer. *)
Lemma vllm_scores_ok (post : request -> option response) (u context : string)
    (choices : list string) (answer : string -> list (string * json)) (log : list request) :
  (forall c, In c choices ->
     post (mkRequest u (Some (vllm_select_data context c)) false None None)
     = Some (mkResponse 200 (Some (JObj (answer c))))) ->
  vllm_scores post u context choices log
  = (inl (map (fun c => match dict_get "prompt_score" (answer c) with Some v => v | None => JInt 0 end)
              choices),
     (log ++ map (fun c => mkRequest u (Some (vllm_select_data context c)) false None None) choices)%list).
Proof.
  revert log; induction choices as [|c rest IH]; intros log H; simpl.
  - rewrite app_nil_r; reflexivity.
  - cbv [bind requests_post]; rewrite (H c (or_introl eq_refl)).
    cbv [assert_200 ret res_json lift get_or_zero]; simpl.
    rewrite IH by (intros c' Hc'; apply H; right; exact Hc').
    rewrite <- app_assoc; reflexivity.
Qed.

(** X18: when every answer has status 200 and a JSON object body,
    [call_select_vllm] posts one request per choice, in order, and returns
    [np.argmax] of the answers' ["prompt_score"] values, an answer without
    that key counting as 0. *)
Theorem call_select_vllm_scores (post : request -> option response) (context u : string)
    (choices : list string) (answer : string -> list (string * json)) (log : list request) :
  (forall c, In c choices ->
     post (mkRequest u (Some (vllm_select_data context c)) false None None)
     = Some (mkResponse 200 (Some (JObj (answer c))))) ->
  call_select_vllm post context choices (Some u) log
  = (np_argmax (map (fun c => match dict_get "prompt_score" (answer c) with
                              | Some v => v
                              | None => JInt 0
                              end) choices),
     (log ++ map (fun c => mkRequest u (Some (vllm_select_data context c)) false None None) choices)%list).
Proof.
  intros H; unfold call_select_vllm; cbv [bind assert_url ret].
  rewrite (vllm_scores_ok post u context choices answer log H); reflexivity.
Qed.

Lemma call_select_vllm_scores_witness :
  fst (call_select_vllm
         (fun r => match req_json r with
                   | Some (JObj d) =>
                       match dict_get "prompt" d with
                       | Some (JStr p) => Some (mkResponse 200 (Some (JObj (vllm_answer (str_drop 2 p)))))
                       | _ => None
                       end
                   | _ => None
                   end) "Q:" ["a"; "b"; "c"] (Some "http://h") [])
  = inl 2.
Proof.
  rewrite (call_select_vllm_scores
             (fun r => match req_json r with
                       | Some (JObj d) =>
                           match dict_get "prompt" d with
                           | Some (JStr p) => Some (mkResponse 200 (Some (JObj (vllm_answer (str_drop 2 p)))))
                           | _ => None
                           end
                       | _ => None
                       end) "Q:" "http://h" ["a"; "b"; "c"] vllm_answer []).
  - reflexivity.
  - intros c [<-|[<-|[<-|[]]]]; reflexivity.
Defined.

(** X19: [call_generate_vllm] and [call_generate_outlines] cut the echoed
    prompt off the returned texts: when the server at the URL answers 200
    with texts [prompt + c], they return [c] for the first text when
    [n == 1] ([IndexError] when there is none), and the list of the [c]s
    otherwise. *)
Theorem call_generate_strips_prompt (post : request -> option response) (prompt : string)
    (temperature max_tokens stop regex : json) (n : Z) (u : string) (log : list request)
    (obj : json) (cs : list string) :
  (forall r, req_url r = u -> post r = Some (mkResponse 200 (Some obj))) ->
  json_index obj "text" = inl (JList (map (fun c => JStr (prompt ++ c)) cs)) ->
  let expected := if Z.eqb n 1
                  then match cs with c :: _ => inl (JStr c) | [] => inr IndexError end
                  else inl (JList (map JStr cs)) in
  fst (call_generate_vllm post prompt temperature max_tokens stop n (Some u) log) = expected /\
  fst (call_generate_outlines post prompt temperature max_tokens stop regex n (Some u) log) = expected.
Proof.
  intros Hp Ht expected.
  assert (Hs : strip_prompt prompt n obj = expected).
  { unfold strip_prompt, expected; rewrite Ht; simpl.
    destruct (Z.eqb n 1).
    - destruct cs as [|c cs]; simpl; [reflexivity|].
      rewrite str_drop_app; reflexivity.
    - assert (E : forall l, mapR (slice_from (String.length prompt)) (map (fun c => JStr (prompt ++ c)) l)
                  = inl (map JStr l)).
      { induction l as [|c l IH]; simpl; [reflexivity|].
        rewrite str_drop_app, IH; reflexivity. }
      rewrite E; reflexivity. }
  split.
  - unfold call_generate_vllm; cbv [bind assert_url ret requests_post].
    rewrite Hp by reflexivity.
    cbv [assert_200 ret res_json lift]; simpl; exact Hs.
  - unfold call_generate_outlines; cbv [bind assert_url ret requests_post].
    rewrite Hp by reflexivity.
    cbv [assert_200 ret res_json lift]; simpl; exact Hs.
Qed.

Lemma call_generate_strips_prompt_witness :
  fst (call_generate_vllm (fun _ => Some (mkResponse 200 (Some (JObj [("text", JList [JStr "Q: hi"])]))))
         "Q:" (JInt 0) (JInt 16) JNull 1 (Some "http://h") [])
  = inl (JStr " hi").
Proof.
  destruct (call_generate_strips_prompt
              (fun _ => Some (mkResponse 200 (Some (JObj [("text", JList [JStr "Q: hi"])]))))
              "Q:" (JInt 0) (JInt 16) JNull JNull 1 "http://h" []
              (JObj [("text", JList [JStr "Q: hi"])]) [" hi"]
              (fun _ _ => eq_refl) eq_refl) as [H _].
  exact H.
Defined.

End TestUtilsFacts.

(** ** The server launch command *)

Module LaunchFacts.
Import TestUtils.

Lemma split_aux_no_sep (sep : ascii) (a cur : string) :
  ~ In sep (list_ascii_of_string a) -> split_aux sep a cur = [(cur ++ a)%string].
Proof.
  revert cur; induction a as [|c a IH]; intros cur H; simpl in *.
  - rewrite string_app_nil; reflexivity.
  - assert (Ec : Ascii.eqb c sep = false) by (apply Ascii.eqb_neq; intros ->; tauto).
    rewrite Ec, IH by tauto.
    rewrite string_app_assoc; reflexivity.
Qed.

Lemma split_aux_sep (sep : ascii) (a b cur : string) :
  ~ In sep (list_ascii_of_string a) ->
  split_aux sep (a ++ String sep b) cur = (cur ++ a)%string :: split_aux sep b "".
Proof.
  revert cur; induction a as [|c a IH]; intros cur H; simpl in *.
  - rewrite Ascii.eqb_refl, string_app_nil; reflexivity.
  - assert (Ec : Ascii.eqb c sep = false) by (apply Ascii.eqb_neq; intros ->; tauto).
    rewrite Ec, IH by tauto.
    rewrite string_app_assoc; reflexivity.
Qed.

Lemma split_aux_length (sep : ascii) (s cur : string) :
  length (split_aux sep s cur) = S (count_occ Ascii.ascii_dec (list_ascii_of_string s) sep).
Proof.
  revert cur; induction s as [|c s IH]; intros cur; simpl; [reflexivity|].
  destruct (Ascii.eqb c sep) eqn:E.
  - apply Ascii.eqb_eq in E; subst c.
    destruct (Ascii.ascii_dec sep sep) as [_|n]; [|congruence].
    simpl; rewrite IH; reflexivity.
  - apply Ascii.eqb_neq in E.
    destruct (Ascii.ascii_dec c sep) as [e|_]; [congruence|].
    apply IH.
Qed.

(** X20: for a base URL [scheme://host:port] ([scheme], [host] and [port]
    without a colon), [popen_launch_server] runs
    [python3 -m sglang.launch_server --model-path model --host host --port port]
    followed by the extra arguments, and then [--api-key key] exactly when
    an API key is given and is not empty. *)
Theorem launch_command_args (model scheme host port : string) (api_key : option string)
    (other_args : list string) :
  ~ In colon (list_ascii_of_string scheme) -> ~ In colon (list_ascii_of_string host) ->
  ~ In colon (list_ascii_of_string port) ->
  launch_command model (scheme ++ "://" ++ host ++ ":" ++ port) api_key other_args
  = inl (["python3"; "-m"; "sglang.launch_server"; "--model-path"; model;
          "--host"; host; "--port"; port] ++ other_args ++
         match api_key with
         | Some k => if String.eqb k "" then [] else ["--api-key"; k]
         | None => []
         end)%list.
Proof.
  intros Hs Hh Hp.
  unfold launch_command, split_colon.
  change ("://" ++ host ++ ":" ++ port)%string with (String colon ("//" ++ host ++ ":" ++ port)).
  rewrite split_aux_sep by exact Hs.
  change ("//" ++ host ++ ":" ++ port)%string with (("//" ++ host) ++ String colon port)%string.
  rewrite split_aux_sep.
  2: { simpl; intros [E|[E|E]]; [discriminate E | discriminate E | exact (Hh E)]. }
  rewrite split_aux_no_sep by exact Hp; simpl.
  destruct api_key as [k|]; [|rewrite app_nil_r; reflexivity].
  destruct (String.eqb k ""); [rewrite app_nil_r|]; reflexivity.
Qed.

Lemma launch_command_args_witness :
  launch_command "meta-llama/Meta-Llama-3.1-8B-Instruct" "http://localhost:8157" (Some "sk-123456") []
  = inl ["python3"; "-m"; "sglang.launch_server"; "--model-path"; "meta-llama/Meta-Llama-3.1-8B-Instruct";
         "--host"; "localhost"; "--port"; "8157"; "--api-key"; "sk-123456"].
Proof.
  apply (launch_command_args "meta-llama/Meta-Llama-3.1-8B-Instruct" "http" "localhost" "8157"
           (Some "sk-123456") []); simpl; intuition discriminate.
Defined.

(** X21: [popen_launch_server] raises [ValueError] before launching
    anything exactly when its base URL does not contain exactly two
    colons (for instance a URL without a scheme, or with a path
    containing a colon). *)
Theorem launch_command_value_error (model base_url : string) (api_key : option string)
    (other_args : list string) :
  launch_command model base_url api_key other_args = inr ValueError <->
  count_occ Ascii.ascii_dec (list_ascii_of_string base_url) colon <> 2.
Proof.
  unfold launch_command, split_colon.
  pose proof (split_aux_length colon base_url "") as L.
  destruct (split_aux colon base_url "") as [|a [|h [|p [|x r]]]]; simpl in L;
    split; intros H; try lia; try reflexivity; try discriminate H.
  destruct api_key as [k|]; [destruct (String.eqb k "")|]; discriminate H.
Qed.

Lemma launch_command_value_error_witness :
  launch_command "m" "localhost:8157" None [] = inr ValueError.
Proof.
  apply launch_command_value_error; simpl; discriminate.
Defined.

End LaunchFacts.
